(** * The commit-message lint configuration of [.commitlint.config.mjs]

    A shallow embedding of the configuration's own code: the two ignore
    predicates, the lax [headerPattern] with its [headerCorrespondence], the
    presence rules [componentEmpty] and [descriptionEmpty], the rule
    [descriptionPresentImperativeTense] with its two verb lists, and
    [customSubjectCaseRule].

    JavaScript strings are sequences of UTF-16 code units; a code unit is a
    natural number [N] and a string is a [list N].  The string methods the
    configuration calls ([trim], [toLowerCase], [split], [includes]) and the
    regular expressions it writes are modelled on that representation. *)

From Stdlib Require Import List NArith Bool Ascii String Lia PeanoNat.
Import ListNotations.

Set Implicit Arguments.

(** ** Unicode case data

    The data String.prototype.toLowerCase works from: the simple lower-case
    mappings of UnicodeData.txt and the properties Case_Ignorable and Cased
    of DerivedCoreProperties.txt, Unicode 14.0.0, with the two
    locale-independent entries of SpecialCasing.txt that change a lower
    case: U+0130 and the final sigma.  A code point is a number [N]. *)

Module Unicode.

(** Simple_Lowercase_Mapping: every code point whose mapping is not itself,
    with its mapping. *)
Definition lowercaseMapping : list (N * N) :=
  [ (65, 97); (66, 98); (67, 99); (68, 100); (69, 101); (70, 102); (71, 103);
    (72, 104); (73, 105); (74, 106); (75, 107); (76, 108); (77, 109);
    (78, 110); (79, 111); (80, 112); (81, 113); (82, 114); (83, 115);
    (84, 116); (85, 117); (86, 118); (87, 119); (88, 120); (89, 121);
    (90, 122); (192, 224); (193, 225); (194, 226); (195, 227); (196, 228);
    (197, 229); (198, 230); (199, 231); (200, 232); (201, 233); (202, 234);
    (203, 235); (204, 236); (205, 237); (206, 238); (207, 239); (208, 240);
    (209, 241); (210, 242); (211, 243); (212, 244); (213, 245); (214, 246);
    (216, 248); (217, 249); (218, 250); (219, 251); (220, 252); (221, 253);
    (222, 254); (256, 257); (258, 259); (260, 261); (262, 263); (264, 265);
    (266, 267); (268, 269); (270, 271); (272, 273); (274, 275); (276, 277);
    (278, 279); (280, 281); (282, 283); (284, 285); (286, 287); (288, 289);
    (290, 291); (292, 293); (294, 295); (296, 297); (298, 299); (300, 301);
    (302, 303); (306, 307); (308, 309); (310, 311); (313, 314); (315, 316);
    (317, 318); (319, 320); (321, 322); (323, 324); (325, 326); (327, 328);
    (330, 331); (332, 333); (334, 335); (336, 337); (338, 339); (340, 341);
    (342, 343); (344, 345); (346, 347); (348, 349); (350, 351); (352, 353);
    (354, 355); (356, 357); (358, 359); (360, 361); (362, 363); (364, 365);
    (366, 367); (368, 369); (370, 371); (372, 373); (374, 375); (376, 255);
    (377, 378); (379, 380); (381, 382); (385, 595); (386, 387); (388, 389);
    (390, 596); (391, 392); (393, 598); (394, 599); (395, 396); (398, 477);
    (399, 601); (400, 603); (401, 402); (403, 608); (404, 611); (406, 617);
    (407, 616); (408, 409); (412, 623); (413, 626); (415, 629); (416, 417);
    (418, 419); (420, 421); (422, 640); (423, 424); (425, 643); (428, 429);
    (430, 648); (431, 432); (433, 650); (434, 651); (435, 436); (437, 438);
    (439, 658); (440, 441); (444, 445); (452, 454); (453, 454); (455, 457);
    (456, 457); (458, 460); (459, 460); (461, 462); (463, 464); (465, 466);
    (467, 468); (469, 470); (471, 472); (473, 474); (475, 476); (478, 479);
    (480, 481); (482, 483); (484, 485); (486, 487); (488, 489); (490, 491);
    (492, 493); (494, 495); (497, 499); (498, 499); (500, 501); (502, 405);
    (503, 447); (504, 505); (506, 507); (508, 509); (510, 511); (512, 513);
    (514, 515); (516, 517); (518, 519); (520, 521); (522, 523); (524, 525);
    (526, 527); (528, 529); (530, 531); (532, 533); (534, 535); (536, 537);
    (538, 539); (540, 541); (542, 543); (544, 414); (546, 547); (548, 549);
    (550, 551); (552, 553); (554, 555); (556, 557); (558, 559); (560, 561);
    (562, 563); (570, 11365); (571, 572); (573, 410); (574, 11366);
    (577, 578); (579, 384); (580, 649); (581, 652); (582, 583); (584, 585);
    (586, 587); (588, 589); (590, 591); (880, 881); (882, 883); (886, 887);
    (895, 1011); (902, 940); (904, 941); (905, 942); (906, 943); (908, 972);
    (910, 973); (911, 974); (913, 945); (914, 946); (915, 947); (916, 948);
    (917, 949); (918, 950); (919, 951); (920, 952); (921, 953); (922, 954);
    (923, 955); (924, 956); (925, 957); (926, 958); (927, 959); (928, 960);
    (929, 961); (931, 963); (932, 964); (933, 965); (934, 966); (935, 967);
    (936, 968); (937, 969); (938, 970); (939, 971); (975, 983); (984, 985);
    (986, 987); (988, 989); (990, 991); (992, 993); (994, 995); (996, 997);
    (998, 999); (1000, 1001); (1002, 1003); (1004, 1005); (1006, 1007);
    (1012, 952); (1015, 1016); (1017, 1010); (1018, 1019); (1021, 891);
    (1022, 892); (1023, 893); (1024, 1104); (1025, 1105); (1026, 1106);
    (1027, 1107); (1028, 1108); (1029, 1109); (1030, 1110); (1031, 1111);
    (1032, 1112); (1033, 1113); (1034, 1114); (1035, 1115); (1036, 1116);
    (1037, 1117); (1038, 1118); (1039, 1119); (1040, 1072); (1041, 1073);
    (1042, 1074); (1043, 1075); (1044, 1076); (1045, 1077); (1046, 1078);
    (1047, 1079); (1048, 1080); (1049, 1081); (1050, 1082); (1051, 1083);
    (1052, 1084); (1053, 1085); (1054, 1086); (1055, 1087); (1056, 1088);
    (1057, 1089); (1058, 1090); (1059, 1091); (1060, 1092); (1061, 1093);
    (1062, 1094); (1063, 1095); (1064, 1096); (1065, 1097); (1066, 1098);
    (1067, 1099); (1068, 1100); (1069, 1101); (1070, 1102); (1071, 1103);
    (1120, 1121); (1122, 1123); (1124, 1125); (1126, 1127); (1128, 1129);
    (1130, 1131); (1132, 1133); (1134, 1135); (1136, 1137); (1138, 1139);
    (1140, 1141); (1142, 1143); (1144, 1145); (1146, 1147); (1148, 1149);
    (1150, 1151); (1152, 1153); (1162, 1163); (1164, 1165); (1166, 1167);
    (1168, 1169); (1170, 1171); (1172, 1173); (1174, 1175); (1176, 1177);
    (1178, 1179); (1180, 1181); (1182, 1183); (1184, 1185); (1186, 1187);
    (1188, 1189); (1190, 1191); (1192, 1193); (1194, 1195); (1196, 1197);
    (1198, 1199); (1200, 1201); (1202, 1203); (1204, 1205); (1206, 1207);
    (1208, 1209); (1210, 1211); (1212, 1213); (1214, 1215); (1216, 1231);
    (1217, 1218); (1219, 1220); (1221, 1222); (1223, 1224); (1225, 1226);
    (1227, 1228); (1229, 1230); (1232, 1233); (1234, 1235); (1236, 1237);
    (1238, 1239); (1240, 1241); (1242, 1243); (1244, 1245); (1246, 1247);
    (1248, 1249); (1250, 1251); (1252, 1253); (1254, 1255); (1256, 1257);
    (1258, 1259); (1260, 1261); (1262, 1263); (1264, 1265); (1266, 1267);
    (1268, 1269); (1270, 1271); (1272, 1273); (1274, 1275); (1276, 1277);
    (1278, 1279); (1280, 1281); (1282, 1283); (1284, 1285); (1286, 1287);
    (1288, 1289); (1290, 1291); (1292, 1293); (1294, 1295); (1296, 1297);
    (1298, 1299); (1300, 1301); (1302, 1303); (1304, 1305); (1306, 1307);
    (1308, 1309); (1310, 1311); (1312, 1313); (1314, 1315); (1316, 1317);
    (1318, 1319); (1320, 1321); (1322, 1323); (1324, 1325); (1326, 1327);
    (1329, 1377); (1330, 1378); (1331, 1379); (1332, 1380); (1333, 1381);
    (1334, 1382); (1335, 1383); (1336, 1384); (1337, 1385); (1338, 1386);
    (1339, 1387); (1340, 1388); (1341, 1389); (1342, 1390); (1343, 1391);
    (1344, 1392); (1345, 1393); (1346, 1394); (1347, 1395); (1348, 1396);
    (1349, 1397); (1350, 1398); (1351, 1399); (1352, 1400); (1353, 1401);
    (1354, 1402); (1355, 1403); (1356, 1404); (1357, 1405); (1358, 1406);
    (1359, 1407); (1360, 1408); (1361, 1409); (1362, 1410); (1363, 1411);
    (1364, 1412); (1365, 1413); (1366, 1414); (4256, 11520); (4257, 11521);
    (4258, 11522); (4259, 11523); (4260, 11524); (4261, 11525);
    (4262, 11526); (4263, 11527); (4264, 11528); (4265, 11529);
    (4266, 11530); (4267, 11531); (4268, 11532); (4269, 11533);
    (4270, 11534); (4271, 11535); (4272, 11536); (4273, 11537);
    (4274, 11538); (4275, 11539); (4276, 11540); (4277, 11541);
    (4278, 11542); (4279, 11543); (4280, 11544); (4281, 11545);
    (4282, 11546); (4283, 11547); (4284, 11548); (4285, 11549);
    (4286, 11550); (4287, 11551); (4288, 11552); (4289, 11553);
    (4290, 11554); (4291, 11555); (4292, 11556); (4293, 11557);
    (4295, 11559); (4301, 11565); (5024, 43888); (5025, 43889);
    (5026, 43890); (5027, 43891); (5028, 43892); (5029, 43893);
    (5030, 43894); (5031, 43895); (5032, 43896); (5033, 43897);
    (5034, 43898); (5035, 43899); (5036, 43900); (5037, 43901);
    (5038, 43902); (5039, 43903); (5040, 43904); (5041, 43905);
    (5042, 43906); (5043, 43907); (5044, 43908); (5045, 43909);
    (5046, 43910); (5047, 43911); (5048, 43912); (5049, 43913);
    (5050, 43914); (5051, 43915); (5052, 43916); (5053, 43917);
    (5054, 43918); (5055, 43919); (5056, 43920); (5057, 43921);
    (5058, 43922); (5059, 43923); (5060, 43924); (5061, 43925);
    (5062, 43926); (5063, 43927); (5064, 43928); (5065, 43929);
    (5066, 43930); (5067, 43931); (5068, 43932); (5069, 43933);
    (5070, 43934); (5071, 43935); (5072, 43936); (5073, 43937);
    (5074, 43938); (5075, 43939); (5076, 43940); (5077, 43941);
    (5078, 43942); (5079, 43943); (5080, 43944); (5081, 43945);
    (5082, 43946); (5083, 43947); (5084, 43948); (5085, 43949);
    (5086, 43950); (5087, 43951); (5088, 43952); (5089, 43953);
    (5090, 43954); (5091, 43955); (5092, 43956); (5093, 43957);
    (5094, 43958); (5095, 43959); (5096, 43960); (5097, 43961);
    (5098, 43962); (5099, 43963); (5100, 43964); (5101, 43965);
    (5102, 43966); (5103, 43967); (5104, 5112); (5105, 5113); (5106, 5114);
    (5107, 5115); (5108, 5116); (5109, 5117); (7312, 4304); (7313, 4305);
    (7314, 4306); (7315, 4307); (7316, 4308); (7317, 4309); (7318, 4310);
    (7319, 4311); (7320, 4312); (7321, 4313); (7322, 4314); (7323, 4315);
    (7324, 4316); (7325, 4317); (7326, 4318); (7327, 4319); (7328, 4320);
    (7329, 4321); (7330, 4322); (7331, 4323); (7332, 4324); (7333, 4325);
    (7334, 4326); (7335, 4327); (7336, 4328); (7337, 4329); (7338, 4330);
    (7339, 4331); (7340, 4332); (7341, 4333); (7342, 4334); (7343, 4335);
    (7344, 4336); (7345, 4337); (7346, 4338); (7347, 4339); (7348, 4340);
    (7349, 4341); (7350, 4342); (7351, 4343); (7352, 4344); (7353, 4345);
    (7354, 4346); (7357, 4349); (7358, 4350); (7359, 4351); (7680, 7681);
    (7682, 7683); (7684, 7685); (7686, 7687); (7688, 7689); (7690, 7691);
    (7692, 7693); (7694, 7695); (7696, 7697); (7698, 7699); (7700, 7701);
    (7702, 7703); (7704, 7705); (7706, 7707); (7708, 7709); (7710, 7711);
    (7712, 7713); (7714, 7715); (7716, 7717); (7718, 7719); (7720, 7721);
    (7722, 7723); (7724, 7725); (7726, 7727); (7728, 7729); (7730, 7731);
    (7732, 7733); (7734, 7735); (7736, 7737); (7738, 7739); (7740, 7741);
    (7742, 7743); (7744, 7745); (7746, 7747); (7748, 7749); (7750, 7751);
    (7752, 7753); (7754, 7755); (7756, 7757); (7758, 7759); (7760, 7761);
    (7762, 7763); (7764, 7765); (7766, 7767); (7768, 7769); (7770, 7771);
    (7772, 7773); (7774, 7775); (7776, 7777); (7778, 7779); (7780, 7781);
    (7782, 7783); (7784, 7785); (7786, 7787); (7788, 7789); (7790, 7791);
    (7792, 7793); (7794, 7795); (7796, 7797); (7798, 7799); (7800, 7801);
    (7802, 7803); (7804, 7805); (7806, 7807); (7808, 7809); (7810, 7811);
    (7812, 7813); (7814, 7815); (7816, 7817); (7818, 7819); (7820, 7821);
    (7822, 7823); (7824, 7825); (7826, 7827); (7828, 7829); (7838, 223);
    (7840, 7841); (7842, 7843); (7844, 7845); (7846, 7847); (7848, 7849);
    (7850, 7851); (7852, 7853); (7854, 7855); (7856, 7857); (7858, 7859);
    (7860, 7861); (7862, 7863); (7864, 7865); (7866, 7867); (7868, 7869);
    (7870, 7871); (7872, 7873); (7874, 7875); (7876, 7877); (7878, 7879);
    (7880, 7881); (7882, 7883); (7884, 7885); (7886, 7887); (7888, 7889);
    (7890, 7891); (7892, 7893); (7894, 7895); (7896, 7897); (7898, 7899);
    (7900, 7901); (7902, 7903); (7904, 7905); (7906, 7907); (7908, 7909);
    (7910, 7911); (7912, 7913); (7914, 7915); (7916, 7917); (7918, 7919);
    (7920, 7921); (7922, 7923); (7924, 7925); (7926, 7927); (7928, 7929);
    (7930, 7931); (7932, 7933); (7934, 7935); (7944, 7936); (7945, 7937);
    (7946, 7938); (7947, 7939); (7948, 7940); (7949, 7941); (7950, 7942);
    (7951, 7943); (7960, 7952); (7961, 7953); (7962, 7954); (7963, 7955);
    (7964, 7956); (7965, 7957); (7976, 7968); (7977, 7969); (7978, 7970);
    (7979, 7971); (7980, 7972); (7981, 7973); (7982, 7974); (7983, 7975);
    (7992, 7984); (7993, 7985); (7994, 7986); (7995, 7987); (7996, 7988);
    (7997, 7989); (7998, 7990); (7999, 7991); (8008, 8000); (8009, 8001);
    (8010, 8002); (8011, 8003); (8012, 8004); (8013, 8005); (8025, 8017);
    (8027, 8019); (8029, 8021); (8031, 8023); (8040, 8032); (8041, 8033);
    (8042, 8034); (8043, 8035); (8044, 8036); (8045, 8037); (8046, 8038);
    (8047, 8039); (8072, 8064); (8073, 8065); (8074, 8066); (8075, 8067);
    (8076, 8068); (8077, 8069); (8078, 8070); (8079, 8071); (8088, 8080);
    (8089, 8081); (8090, 8082); (8091, 8083); (8092, 8084); (8093, 8085);
    (8094, 8086); (8095, 8087); (8104, 8096); (8105, 8097); (8106, 8098);
    (8107, 8099); (8108, 8100); (8109, 8101); (8110, 8102); (8111, 8103);
    (8120, 8112); (8121, 8113); (8122, 8048); (8123, 8049); (8124, 8115);
    (8136, 8050); (8137, 8051); (8138, 8052); (8139, 8053); (8140, 8131);
    (8152, 8144); (8153, 8145); (8154, 8054); (8155, 8055); (8168, 8160);
    (8169, 8161); (8170, 8058); (8171, 8059); (8172, 8165); (8184, 8056);
    (8185, 8057); (8186, 8060); (8187, 8061); (8188, 8179); (8486, 969);
    (8490, 107); (8491, 229); (8498, 8526); (8544, 8560); (8545, 8561);
    (8546, 8562); (8547, 8563); (8548, 8564); (8549, 8565); (8550, 8566);
    (8551, 8567); (8552, 8568); (8553, 8569); (8554, 8570); (8555, 8571);
    (8556, 8572); (8557, 8573); (8558, 8574); (8559, 8575); (8579, 8580);
    (9398, 9424); (9399, 9425); (9400, 9426); (9401, 9427); (9402, 9428);
    (9403, 9429); (9404, 9430); (9405, 9431); (9406, 9432); (9407, 9433);
    (9408, 9434); (9409, 9435); (9410, 9436); (9411, 9437); (9412, 9438);
    (9413, 9439); (9414, 9440); (9415, 9441); (9416, 9442); (9417, 9443);
    (9418, 9444); (9419, 9445); (9420, 9446); (9421, 9447); (9422, 9448);
    (9423, 9449); (11264, 11312); (11265, 11313); (11266, 11314);
    (11267, 11315); (11268, 11316); (11269, 11317); (11270, 11318);
    (11271, 11319); (11272, 11320); (11273, 11321); (11274, 11322);
    (11275, 11323); (11276, 11324); (11277, 11325); (11278, 11326);
    (11279, 11327); (11280, 11328); (11281, 11329); (11282, 11330);
    (11283, 11331); (11284, 11332); (11285, 11333); (11286, 11334);
    (11287, 11335); (11288, 11336); (11289, 11337); (11290, 11338);
    (11291, 11339); (11292, 11340); (11293, 11341); (11294, 11342);
    (11295, 11343); (11296, 11344); (11297, 11345); (11298, 11346);
    (11299, 11347); (11300, 11348); (11301, 11349); (11302, 11350);
    (11303, 11351); (11304, 11352); (11305, 11353); (11306, 11354);
    (11307, 11355); (11308, 11356); (11309, 11357); (11310, 11358);
    (11311, 11359); (11360, 11361); (11362, 619); (11363, 7549);
    (11364, 637); (11367, 11368); (11369, 11370); (11371, 11372);
    (11373, 593); (11374, 625); (11375, 592); (11376, 594); (11378, 11379);
    (11381, 11382); (11390, 575); (11391, 576); (11392, 11393);
    (11394, 11395); (11396, 11397); (11398, 11399); (11400, 11401);
    (11402, 11403); (11404, 11405); (11406, 11407); (11408, 11409);
    (11410, 11411); (11412, 11413); (11414, 11415); (11416, 11417);
    (11418, 11419); (11420, 11421); (11422, 11423); (11424, 11425);
    (11426, 11427); (11428, 11429); (11430, 11431); (11432, 11433);
    (11434, 11435); (11436, 11437); (11438, 11439); (11440, 11441);
    (11442, 11443); (11444, 11445); (11446, 11447); (11448, 11449);
    (11450, 11451); (11452, 11453); (11454, 11455); (11456, 11457);
    (11458, 11459); (11460, 11461); (11462, 11463); (11464, 11465);
    (11466, 11467); (11468, 11469); (11470, 11471); (11472, 11473);
    (11474, 11475); (11476, 11477); (11478, 11479); (11480, 11481);
    (11482, 11483); (11484, 11485); (11486, 11487); (11488, 11489);
    (11490, 11491); (11499, 11500); (11501, 11502); (11506, 11507);
    (42560, 42561); (42562, 42563); (42564, 42565); (42566, 42567);
    (42568, 42569); (42570, 42571); (42572, 42573); (42574, 42575);
    (42576, 42577); (42578, 42579); (42580, 42581); (42582, 42583);
    (42584, 42585); (42586, 42587); (42588, 42589); (42590, 42591);
    (42592, 42593); (42594, 42595); (42596, 42597); (42598, 42599);
    (42600, 42601); (42602, 42603); (42604, 42605); (42624, 42625);
    (42626, 42627); (42628, 42629); (42630, 42631); (42632, 42633);
    (42634, 42635); (42636, 42637); (42638, 42639); (42640, 42641);
    (42642, 42643); (42644, 42645); (42646, 42647); (42648, 42649);
    (42650, 42651); (42786, 42787); (42788, 42789); (42790, 42791);
    (42792, 42793); (42794, 42795); (42796, 42797); (42798, 42799);
    (42802, 42803); (42804, 42805); (42806, 42807); (42808, 42809);
    (42810, 42811); (42812, 42813); (42814, 42815); (42816, 42817);
    (42818, 42819); (42820, 42821); (42822, 42823); (42824, 42825);
    (42826, 42827); (42828, 42829); (42830, 42831); (42832, 42833);
    (42834, 42835); (42836, 42837); (42838, 42839); (42840, 42841);
    (42842, 42843); (42844, 42845); (42846, 42847); (42848, 42849);
    (42850, 42851); (42852, 42853); (42854, 42855); (42856, 42857);
    (42858, 42859); (42860, 42861); (42862, 42863); (42873, 42874);
    (42875, 42876); (42877, 7545); (42878, 42879); (42880, 42881);
    (42882, 42883); (42884, 42885); (42886, 42887); (42891, 42892);
    (42893, 613); (42896, 42897); (42898, 42899); (42902, 42903);
    (42904, 42905); (42906, 42907); (42908, 42909); (42910, 42911);
    (42912, 42913); (42914, 42915); (42916, 42917); (42918, 42919);
    (42920, 42921); (42922, 614); (42923, 604); (42924, 609); (42925, 620);
    (42926, 618); (42928, 670); (42929, 647); (42930, 669); (42931, 43859);
    (42932, 42933); (42934, 42935); (42936, 42937); (42938, 42939);
    (42940, 42941); (42942, 42943); (42944, 42945); (42946, 42947);
    (42948, 42900); (42949, 642); (42950, 7566); (42951, 42952);
    (42953, 42954); (42960, 42961); (42966, 42967); (42968, 42969);
    (42997, 42998); (65313, 65345); (65314, 65346); (65315, 65347);
    (65316, 65348); (65317, 65349); (65318, 65350); (65319, 65351);
    (65320, 65352); (65321, 65353); (65322, 65354); (65323, 65355);
    (65324, 65356); (65325, 65357); (65326, 65358); (65327, 65359);
    (65328, 65360); (65329, 65361); (65330, 65362); (65331, 65363);
    (65332, 65364); (65333, 65365); (65334, 65366); (65335, 65367);
    (65336, 65368); (65337, 65369); (65338, 65370); (66560, 66600);
    (66561, 66601); (66562, 66602); (66563, 66603); (66564, 66604);
    (66565, 66605); (66566, 66606); (66567, 66607); (66568, 66608);
    (66569, 66609); (66570, 66610); (66571, 66611); (66572, 66612);
    (66573, 66613); (66574, 66614); (66575, 66615); (66576, 66616);
    (66577, 66617); (66578, 66618); (66579, 66619); (66580, 66620);
    (66581, 66621); (66582, 66622); (66583, 66623); (66584, 66624);
    (66585, 66625); (66586, 66626); (66587, 66627); (66588, 66628);
    (66589, 66629); (66590, 66630); (66591, 66631); (66592, 66632);
    (66593, 66633); (66594, 66634); (66595, 66635); (66596, 66636);
    (66597, 66637); (66598, 66638); (66599, 66639); (66736, 66776);
    (66737, 66777); (66738, 66778); (66739, 66779); (66740, 66780);
    (66741, 66781); (66742, 66782); (66743, 66783); (66744, 66784);
    (66745, 66785); (66746, 66786); (66747, 66787); (66748, 66788);
    (66749, 66789); (66750, 66790); (66751, 66791); (66752, 66792);
    (66753, 66793); (66754, 66794); (66755, 66795); (66756, 66796);
    (66757, 66797); (66758, 66798); (66759, 66799); (66760, 66800);
    (66761, 66801); (66762, 66802); (66763, 66803); (66764, 66804);
    (66765, 66805); (66766, 66806); (66767, 66807); (66768, 66808);
    (66769, 66809); (66770, 66810); (66771, 66811); (66928, 66967);
    (66929, 66968); (66930, 66969); (66931, 66970); (66932, 66971);
    (66933, 66972); (66934, 66973); (66935, 66974); (66936, 66975);
    (66937, 66976); (66938, 66977); (66940, 66979); (66941, 66980);
    (66942, 66981); (66943, 66982); (66944, 66983); (66945, 66984);
    (66946, 66985); (66947, 66986); (66948, 66987); (66949, 66988);
    (66950, 66989); (66951, 66990); (66952, 66991); (66953, 66992);
    (66954, 66993); (66956, 66995); (66957, 66996); (66958, 66997);
    (66959, 66998); (66960, 66999); (66961, 67000); (66962, 67001);
    (66964, 67003); (66965, 67004); (68736, 68800); (68737, 68801);
    (68738, 68802); (68739, 68803); (68740, 68804); (68741, 68805);
    (68742, 68806); (68743, 68807); (68744, 68808); (68745, 68809);
    (68746, 68810); (68747, 68811); (68748, 68812); (68749, 68813);
    (68750, 68814); (68751, 68815); (68752, 68816); (68753, 68817);
    (68754, 68818); (68755, 68819); (68756, 68820); (68757, 68821);
    (68758, 68822); (68759, 68823); (68760, 68824); (68761, 68825);
    (68762, 68826); (68763, 68827); (68764, 68828); (68765, 68829);
    (68766, 68830); (68767, 68831); (68768, 68832); (68769, 68833);
    (68770, 68834); (68771, 68835); (68772, 68836); (68773, 68837);
    (68774, 68838); (68775, 68839); (68776, 68840); (68777, 68841);
    (68778, 68842); (68779, 68843); (68780, 68844); (68781, 68845);
    (68782, 68846); (68783, 68847); (68784, 68848); (68785, 68849);
    (68786, 68850); (71840, 71872); (71841, 71873); (71842, 71874);
    (71843, 71875); (71844, 71876); (71845, 71877); (71846, 71878);
    (71847, 71879); (71848, 71880); (71849, 71881); (71850, 71882);
    (71851, 71883); (71852, 71884); (71853, 71885); (71854, 71886);
    (71855, 71887); (71856, 71888); (71857, 71889); (71858, 71890);
    (71859, 71891); (71860, 71892); (71861, 71893); (71862, 71894);
    (71863, 71895); (71864, 71896); (71865, 71897); (71866, 71898);
    (71867, 71899); (71868, 71900); (71869, 71901); (71870, 71902);
    (71871, 71903); (93760, 93792); (93761, 93793); (93762, 93794);
    (93763, 93795); (93764, 93796); (93765, 93797); (93766, 93798);
    (93767, 93799); (93768, 93800); (93769, 93801); (93770, 93802);
    (93771, 93803); (93772, 93804); (93773, 93805); (93774, 93806);
    (93775, 93807); (93776, 93808); (93777, 93809); (93778, 93810);
    (93779, 93811); (93780, 93812); (93781, 93813); (93782, 93814);
    (93783, 93815); (93784, 93816); (93785, 93817); (93786, 93818);
    (93787, 93819); (93788, 93820); (93789, 93821); (93790, 93822);
    (93791, 93823); (125184, 125218); (125185, 125219); (125186, 125220);
    (125187, 125221); (125188, 125222); (125189, 125223); (125190, 125224);
    (125191, 125225); (125192, 125226); (125193, 125227); (125194, 125228);
    (125195, 125229); (125196, 125230); (125197, 125231); (125198, 125232);
    (125199, 125233); (125200, 125234); (125201, 125235); (125202, 125236);
    (125203, 125237); (125204, 125238); (125205, 125239); (125206, 125240);
    (125207, 125241); (125208, 125242); (125209, 125243); (125210, 125244);
    (125211, 125245); (125212, 125246); (125213, 125247); (125214, 125248);
    (125215, 125249); (125216, 125250); (125217, 125251) ]%N.

(** Case_Ignorable, as inclusive ranges. *)
Definition caseIgnorableRanges : list (N * N) :=
  [ (39, 39); (46, 46); (58, 58); (94, 94); (96, 96); (168, 168); (173, 173);
    (175, 175); (180, 180); (183, 184); (688, 879); (884, 885); (890, 890);
    (900, 901); (903, 903); (1155, 1161); (1369, 1369); (1375, 1375);
    (1425, 1469); (1471, 1471); (1473, 1474); (1476, 1477); (1479, 1479);
    (1524, 1524); (1536, 1541); (1552, 1562); (1564, 1564); (1600, 1600);
    (1611, 1631); (1648, 1648); (1750, 1757); (1759, 1768); (1770, 1773);
    (1807, 1807); (1809, 1809); (1840, 1866); (1958, 1968); (2027, 2037);
    (2042, 2042); (2045, 2045); (2070, 2093); (2137, 2139); (2184, 2184);
    (2192, 2193); (2200, 2207); (2249, 2306); (2362, 2362); (2364, 2364);
    (2369, 2376); (2381, 2381); (2385, 2391); (2402, 2403); (2417, 2417);
    (2433, 2433); (2492, 2492); (2497, 2500); (2509, 2509); (2530, 2531);
    (2558, 2558); (2561, 2562); (2620, 2620); (2625, 2626); (2631, 2632);
    (2635, 2637); (2641, 2641); (2672, 2673); (2677, 2677); (2689, 2690);
    (2748, 2748); (2753, 2757); (2759, 2760); (2765, 2765); (2786, 2787);
    (2810, 2815); (2817, 2817); (2876, 2876); (2879, 2879); (2881, 2884);
    (2893, 2893); (2901, 2902); (2914, 2915); (2946, 2946); (3008, 3008);
    (3021, 3021); (3072, 3072); (3076, 3076); (3132, 3132); (3134, 3136);
    (3142, 3144); (3146, 3149); (3157, 3158); (3170, 3171); (3201, 3201);
    (3260, 3260); (3263, 3263); (3270, 3270); (3276, 3277); (3298, 3299);
    (3328, 3329); (3387, 3388); (3393, 3396); (3405, 3405); (3426, 3427);
    (3457, 3457); (3530, 3530); (3538, 3540); (3542, 3542); (3633, 3633);
    (3636, 3642); (3654, 3662); (3761, 3761); (3764, 3772); (3782, 3782);
    (3784, 3789); (3864, 3865); (3893, 3893); (3895, 3895); (3897, 3897);
    (3953, 3966); (3968, 3972); (3974, 3975); (3981, 3991); (3993, 4028);
    (4038, 4038); (4141, 4144); (4146, 4151); (4153, 4154); (4157, 4158);
    (4184, 4185); (4190, 4192); (4209, 4212); (4226, 4226); (4229, 4230);
    (4237, 4237); (4253, 4253); (4348, 4348); (4957, 4959); (5906, 5908);
    (5938, 5939); (5970, 5971); (6002, 6003); (6068, 6069); (6071, 6077);
    (6086, 6086); (6089, 6099); (6103, 6103); (6109, 6109); (6155, 6159);
    (6211, 6211); (6277, 6278); (6313, 6313); (6432, 6434); (6439, 6440);
    (6450, 6450); (6457, 6459); (6679, 6680); (6683, 6683); (6742, 6742);
    (6744, 6750); (6752, 6752); (6754, 6754); (6757, 6764); (6771, 6780);
    (6783, 6783); (6823, 6823); (6832, 6862); (6912, 6915); (6964, 6964);
    (6966, 6970); (6972, 6972); (6978, 6978); (7019, 7027); (7040, 7041);
    (7074, 7077); (7080, 7081); (7083, 7085); (7142, 7142); (7144, 7145);
    (7149, 7149); (7151, 7153); (7212, 7219); (7222, 7223); (7288, 7293);
    (7376, 7378); (7380, 7392); (7394, 7400); (7405, 7405); (7412, 7412);
    (7416, 7417); (7468, 7530); (7544, 7544); (7579, 7679); (8125, 8125);
    (8127, 8129); (8141, 8143); (8157, 8159); (8173, 8175); (8189, 8190);
    (8203, 8207); (8216, 8217); (8228, 8228); (8231, 8231); (8234, 8238);
    (8288, 8292); (8294, 8303); (8305, 8305); (8319, 8319); (8336, 8348);
    (8400, 8432); (11388, 11389); (11503, 11505); (11631, 11631);
    (11647, 11647); (11744, 11775); (11823, 11823); (12293, 12293);
    (12330, 12333); (12337, 12341); (12347, 12347); (12441, 12446);
    (12540, 12542); (40981, 40981); (42232, 42237); (42508, 42508);
    (42607, 42610); (42612, 42621); (42623, 42623); (42652, 42655);
    (42736, 42737); (42752, 42785); (42864, 42864); (42888, 42890);
    (42994, 42996); (43000, 43001); (43010, 43010); (43014, 43014);
    (43019, 43019); (43045, 43046); (43052, 43052); (43204, 43205);
    (43232, 43249); (43263, 43263); (43302, 43309); (43335, 43345);
    (43392, 43394); (43443, 43443); (43446, 43449); (43452, 43453);
    (43471, 43471); (43493, 43494); (43561, 43566); (43569, 43570);
    (43573, 43574); (43587, 43587); (43596, 43596); (43632, 43632);
    (43644, 43644); (43696, 43696); (43698, 43700); (43703, 43704);
    (43710, 43711); (43713, 43713); (43741, 43741); (43756, 43757);
    (43763, 43764); (43766, 43766); (43867, 43871); (43881, 43883);
    (44005, 44005); (44008, 44008); (44013, 44013); (64286, 64286);
    (64434, 64450); (65024, 65039); (65043, 65043); (65056, 65071);
    (65106, 65106); (65109, 65109); (65279, 65279); (65287, 65287);
    (65294, 65294); (65306, 65306); (65342, 65342); (65344, 65344);
    (65392, 65392); (65438, 65439); (65507, 65507); (65529, 65531);
    (66045, 66045); (66272, 66272); (66422, 66426); (67456, 67461);
    (67463, 67504); (67506, 67514); (68097, 68099); (68101, 68102);
    (68108, 68111); (68152, 68154); (68159, 68159); (68325, 68326);
    (68900, 68903); (69291, 69292); (69446, 69456); (69506, 69509);
    (69633, 69633); (69688, 69702); (69744, 69744); (69747, 69748);
    (69759, 69761); (69811, 69814); (69817, 69818); (69821, 69821);
    (69826, 69826); (69837, 69837); (69888, 69890); (69927, 69931);
    (69933, 69940); (70003, 70003); (70016, 70017); (70070, 70078);
    (70089, 70092); (70095, 70095); (70191, 70193); (70196, 70196);
    (70198, 70199); (70206, 70206); (70367, 70367); (70371, 70378);
    (70400, 70401); (70459, 70460); (70464, 70464); (70502, 70508);
    (70512, 70516); (70712, 70719); (70722, 70724); (70726, 70726);
    (70750, 70750); (70835, 70840); (70842, 70842); (70847, 70848);
    (70850, 70851); (71090, 71093); (71100, 71101); (71103, 71104);
    (71132, 71133); (71219, 71226); (71229, 71229); (71231, 71232);
    (71339, 71339); (71341, 71341); (71344, 71349); (71351, 71351);
    (71453, 71455); (71458, 71461); (71463, 71467); (71727, 71735);
    (71737, 71738); (71995, 71996); (71998, 71998); (72003, 72003);
    (72148, 72151); (72154, 72155); (72160, 72160); (72193, 72202);
    (72243, 72248); (72251, 72254); (72263, 72263); (72273, 72278);
    (72281, 72283); (72330, 72342); (72344, 72345); (72752, 72758);
    (72760, 72765); (72767, 72767); (72850, 72871); (72874, 72880);
    (72882, 72883); (72885, 72886); (73009, 73014); (73018, 73018);
    (73020, 73021); (73023, 73029); (73031, 73031); (73104, 73105);
    (73109, 73109); (73111, 73111); (73459, 73460); (78896, 78904);
    (92912, 92916); (92976, 92982); (92992, 92995); (94031, 94031);
    (94095, 94111); (94176, 94177); (94179, 94180); (110576, 110579);
    (110581, 110587); (110589, 110590); (113821, 113822); (113824, 113827);
    (118528, 118573); (118576, 118598); (119143, 119145); (119155, 119170);
    (119173, 119179); (119210, 119213); (119362, 119364); (121344, 121398);
    (121403, 121452); (121461, 121461); (121476, 121476); (121499, 121503);
    (121505, 121519); (122880, 122886); (122888, 122904); (122907, 122913);
    (122915, 122916); (122918, 122922); (123184, 123197); (123566, 123566);
    (123628, 123631); (125136, 125142); (125252, 125259); (127995, 127999);
    (917505, 917505); (917536, 917631); (917760, 917999) ]%N.

(** Cased, as inclusive ranges. *)
Definition casedRanges : list (N * N) :=
  [ (65, 90); (97, 122); (170, 170); (181, 181); (186, 186); (192, 214);
    (216, 246); (248, 442); (444, 447); (452, 659); (661, 696); (704, 705);
    (736, 740); (837, 837); (880, 883); (886, 887); (890, 893); (895, 895);
    (902, 902); (904, 906); (908, 908); (910, 929); (931, 1013);
    (1015, 1153); (1162, 1327); (1329, 1366); (1376, 1416); (4256, 4293);
    (4295, 4295); (4301, 4301); (4304, 4346); (4349, 4351); (5024, 5109);
    (5112, 5117); (7296, 7304); (7312, 7354); (7357, 7359); (7424, 7615);
    (7680, 7957); (7960, 7965); (7968, 8005); (8008, 8013); (8016, 8023);
    (8025, 8025); (8027, 8027); (8029, 8029); (8031, 8061); (8064, 8116);
    (8118, 8124); (8126, 8126); (8130, 8132); (8134, 8140); (8144, 8147);
    (8150, 8155); (8160, 8172); (8178, 8180); (8182, 8188); (8305, 8305);
    (8319, 8319); (8336, 8348); (8450, 8450); (8455, 8455); (8458, 8467);
    (8469, 8469); (8473, 8477); (8484, 8484); (8486, 8486); (8488, 8488);
    (8490, 8493); (8495, 8500); (8505, 8505); (8508, 8511); (8517, 8521);
    (8526, 8526); (8544, 8575); (8579, 8580); (9398, 9449); (11264, 11492);
    (11499, 11502); (11506, 11507); (11520, 11557); (11559, 11559);
    (11565, 11565); (42560, 42605); (42624, 42653); (42786, 42887);
    (42891, 42894); (42896, 42954); (42960, 42961); (42963, 42963);
    (42965, 42969); (42997, 42998); (43000, 43002); (43824, 43866);
    (43868, 43880); (43888, 43967); (64256, 64262); (64275, 64279);
    (65313, 65338); (65345, 65370); (66560, 66639); (66736, 66771);
    (66776, 66811); (66928, 66938); (66940, 66954); (66956, 66962);
    (66964, 66965); (66967, 66977); (66979, 66993); (66995, 67001);
    (67003, 67004); (67456, 67456); (67459, 67461); (67463, 67504);
    (67506, 67514); (68736, 68786); (68800, 68850); (71840, 71903);
    (93760, 93823); (119808, 119892); (119894, 119964); (119966, 119967);
    (119970, 119970); (119973, 119974); (119977, 119980); (119982, 119993);
    (119995, 119995); (119997, 120003); (120005, 120069); (120071, 120074);
    (120077, 120084); (120086, 120092); (120094, 120121); (120123, 120126);
    (120128, 120132); (120134, 120134); (120138, 120144); (120146, 120485);
    (120488, 120512); (120514, 120538); (120540, 120570); (120572, 120596);
    (120598, 120628); (120630, 120654); (120656, 120686); (120688, 120712);
    (120714, 120744); (120746, 120770); (120772, 120779); (122624, 122633);
    (122635, 122654); (125184, 125251); (127280, 127305); (127312, 127337);
    (127344, 127369) ]%N.

Fixpoint inRanges (c : N) (rs : list (N * N)) : bool :=
  match rs with
  | [] => false
  | (lo, hi) :: rest => (N.leb lo c && N.leb c hi)%bool || inRanges c rest
  end.

Definition caseIgnorable (c : N) : bool := inRanges c caseIgnorableRanges.
Definition cased (c : N) : bool := inRanges c casedRanges.

Fixpoint lookup (c : N) (table : list (N * N)) : option N :=
  match table with
  | [] => None
  | (from, to) :: rest => if N.eqb c from then Some to else lookup c rest
  end.

Definition simpleLowercase (c : N) : N :=
  match lookup c lowercaseMapping with
  | Some d => d
  | None => c
  end.

(** The code points ahead are case-ignorable ones and then a cased one. *)
Fixpoint casedAhead (l : list N) : bool :=
  match l with
  | [] => false
  | c :: rest => if caseIgnorable c then casedAhead rest else cased c
  end.

(** Final_Sigma: a cased letter before, case-ignorable code points aside,
    and none after.  [before] lists the preceding code points, nearest
    first. *)
Definition finalSigma (before after : list N) : bool :=
  (casedAhead before && negb (casedAhead after))%bool.

(** The lower-case mapping of one code point in its context. *)
Definition lowercaseAt (before : list N) (c : N)
           (after : list N) : list N :=
  if N.eqb c 304 then [105; 775]%N
  else if N.eqb c 931 then
         if finalSigma before after then [962%N] else [963%N]
       else [simpleLowercase c].

Fixpoint toLowercaseFrom (before cps : list N) : list N :=
  match cps with
  | [] => []
  | c :: after =>
      lowercaseAt before c after ++ toLowercaseFrom (c :: before) after
  end.

(** toLowercase of the Default Case Conversion. *)
Definition toLowercase (cps : list N) : list N :=
  toLowercaseFrom [] cps.

End Unicode.

(** ** JavaScript strings *)

Module JS.

Definition unit16 := N.
Definition jsstring := list unit16.

(** A string literal of the source, character by character. *)
Definition lit (s : string) : jsstring :=
  map N_of_ascii (list_ascii_of_string s).

Definition SP : unit16 := 32%N.
Definition TAB : unit16 := 9%N.
Definition LF : unit16 := 10%N.
Definition CR : unit16 := 13%N.
Definition COLON : unit16 := 58%N.

Definition between (lo hi c : N) : bool := (N.leb lo c && N.leb c hi)%bool.

(** ECMAScript LineTerminator: LF, CR, LS, PS. *)
Definition isLineTerminator (c : unit16) : bool :=
  (N.eqb c 10 || N.eqb c 13 || N.eqb c 8232 || N.eqb c 8233)%bool.

(** ECMAScript WhiteSpace together with LineTerminator: what [\s] matches
    and what [trim] strips. *)
Definition isWhiteSpace (c : unit16) : bool :=
  (N.eqb c 9 || N.eqb c 11 || N.eqb c 12 || N.eqb c 32 || N.eqb c 160
   || N.eqb c 5760 || between 8192 8202 c || N.eqb c 8239 || N.eqb c 8287
   || N.eqb c 12288 || N.eqb c 65279 || isLineTerminator c)%bool.

(** [\w] without the [i] and [u] flags: [A-Za-z0-9_]. *)
Definition isWordChar (c : unit16) : bool :=
  (between 65 90 c || between 97 122 c || between 48 57 c || N.eqb c 95)%bool.

Definition isLeadSurrogate (c : unit16) : bool := between 55296 56319 c.
Definition isTrailSurrogate (c : unit16) : bool := between 56320 57343 c.

(** StringToCodePoints: a lead surrogate followed by a trail surrogate is
    one code point, any other code unit is a code point by itself. *)
Fixpoint stringToCodePoints (s : jsstring) : list N :=
  match s with
  | [] => []
  | h :: t =>
      match t with
      | l :: t' =>
          if (isLeadSurrogate h && isTrailSurrogate l)%bool
          then (65536 + (h - 55296) * 1024 + (l - 56320))%N
               :: stringToCodePoints t'
          else h :: stringToCodePoints t
      | [] => [h]
      end
  end.

(** The code units of one code point.  (A number beyond U+10FFFF is no code
    point and is kept as it is.) *)
Definition codePointToUnits (cp : N) : jsstring :=
  if (N.ltb cp 65536 || N.ltb 1114111 cp)%bool then [cp]
  else [(55296 + (cp - 65536) / 1024)%N; (56320 + (cp - 65536) mod 1024)%N].

(** CodePointsToString. *)
Definition codePointsToString (cps : list N) : jsstring :=
  flat_map codePointToUnits cps.

(** [toLowerCase]: the code points of the string, lower-cased by the
    Unicode Default Case Conversion, turned into a string again. *)
Definition toLowerCase (s : jsstring) : jsstring :=
  codePointsToString (Unicode.toLowercase (stringToCodePoints s)).

Fixpoint dropWhile (p : unit16 -> bool) (s : jsstring) : jsstring :=
  match s with
  | [] => []
  | c :: t => if p c then dropWhile p t else s
  end.

Fixpoint takeWhile (p : unit16 -> bool) (s : jsstring) : jsstring :=
  match s with
  | [] => []
  | c :: t => if p c then c :: takeWhile p t else []
  end.

Definition trimStart (s : jsstring) : jsstring := dropWhile isWhiteSpace s.
Definition trimEnd (s : jsstring) : jsstring :=
  rev (dropWhile isWhiteSpace (rev s)).
Definition trim (s : jsstring) : jsstring := trimEnd (trimStart s).

(** [s.split(sep)] for a separator of one code unit: the pieces between the
    separators, never an empty array. *)
Fixpoint split (sep : unit16) (s : jsstring) : list jsstring :=
  match s with
  | [] => [[]]
  | c :: t =>
      if N.eqb c sep then [] :: split sep t
      else match split sep t with
           | [] => [[c]]
           | w :: ws => (c :: w) :: ws
           end
  end.

Definition eqb (a b : jsstring) : bool :=
  if list_eq_dec N.eq_dec a b then true else false.

Fixpoint startsWith (s sub : jsstring) : bool :=
  match sub, s with
  | [], _ => true
  | _ :: _, [] => false
  | x :: sub', c :: s' => (N.eqb c x && startsWith s' sub')%bool
  end.

(** [s.includes(sub)]: [sub] occurs somewhere in [s]. *)
Fixpoint includes (s sub : jsstring) : bool :=
  (startsWith s sub
   || match s with
      | [] => false
      | _ :: t => includes t sub
      end)%bool.

(** [array.includes(x)] on an array of strings. *)
Definition arrayIncludes (a : list jsstring) (x : jsstring) : bool :=
  existsb (eqb x) a.

(** [x || ''] on a string that may be [null] or [undefined]. *)
Definition orEmpty (x : option jsstring) : jsstring :=
  match x with
  | Some s => s
  | None => []
  end.

(** [x || null] on a string that may be [undefined]: the empty string is
    falsy. *)
Definition orNull (x : option jsstring) : option jsstring :=
  match x with
  | Some [] => None
  | _ => x
  end.

(** [parts.join(sep)]. *)
Fixpoint join (sep : jsstring) (parts : list jsstring) : jsstring :=
  match parts with
  | [] => []
  | [p] => p
  | p :: ps => p ++ sep ++ join sep ps
  end.

End JS.
Import JS.

(** ** Regular expressions

    The fragment of ECMAScript regular expressions that the configuration
    writes, with the backtracking semantics of the language: alternatives
    are tried left to right, quantifiers are greedy, a capture group keeps
    the text of its last successful match, and a group in an alternative
    that did not take part in the match stays [undefined]. *)

Module Regex.

(** What a single pattern character or class matches. *)
Inductive cset : Type :=
| CChar (c : unit16)      (* a literal character *)
| CWord                   (* \w *)
| CSpace                  (* \s *)
| CDot                    (* .  *)
| CUnion (a b : cset).    (* the members of a bracket class *)

Fixpoint cset_mem (c : unit16) (x : cset) : bool :=
  match x with
  | CChar d => N.eqb c d
  | CWord => isWordChar c
  | CSpace => isWhiteSpace c
  | CDot => negb (isLineTerminator c)
  | CUnion a b => (cset_mem c a || cset_mem c b)%bool
  end.

Inductive regex : Type :=
| RBol                          (* ^ , no multiline flag *)
| REol                          (* $ , no multiline flag *)
| RSet (x : cset)               (* one character of x *)
| RPlus (x : cset)              (* x+ , greedy *)
| ROpt (x : cset)               (* x? , greedy *)
| RSeq (a b : regex)
| RAlt (a b : regex)            (* a|b *)
| RGroup (n : nat) (a : regex). (* the n-th capture group *)

(** Captures, most recent first. *)
Definition captures := list (nat * jsstring).

Fixpoint group (cs : captures) (n : nat) : option jsstring :=
  match cs with
  | [] => None
  | (m, v) :: rest => if Nat.eqb m n then Some v else group rest n
  end.

Section Matcher.

Variable R : Type.

(** A continuation receives the index reached, the input still to read and
    the captures so far. *)
Definition cont := nat -> jsstring -> captures -> option R.

(** [x*], greedy: take one more character first, give it back when the rest
    of the pattern fails. *)
Fixpoint rstar (x : cset) (i : nat) (s : jsstring)
         (k : nat -> jsstring -> option R) : option R :=
  match s with
  | c :: t =>
      if cset_mem c x then
        match rstar x (S i) t k with
        | Some r => Some r
        | None => k i s
        end
      else k i s
  | [] => k i s
  end.

Fixpoint rmatch (r : regex) (i : nat) (s : jsstring) (cs : captures)
         (k : cont) : option R :=
  match r with
  | RBol => if Nat.eqb i 0 then k i s cs else None
  | REol => match s with [] => k i s cs | _ :: _ => None end
  | RSet x =>
      match s with
      | c :: t => if cset_mem c x then k (S i) t cs else None
      | [] => None
      end
  | RPlus x =>
      match s with
      | c :: t =>
          if cset_mem c x then rstar x (S i) t (fun j u => k j u cs)
          else None
      | [] => None
      end
  | ROpt x =>
      match s with
      | c :: t =>
          if cset_mem c x then
            match k (S i) t cs with
            | Some r => Some r
            | None => k i s cs
            end
          else k i s cs
      | [] => k i s cs
      end
  | RSeq a b => rmatch a i s cs (fun j u cs' => rmatch b j u cs' k)
  | RAlt a b =>
      match rmatch a i s cs k with
      | Some r => Some r
      | None => rmatch b i s cs k
      end
  | RGroup n a =>
      rmatch a i s cs (fun j u cs' => k j u ((n, firstn (j - i) s) :: cs'))
  end.

End Matcher.

(** The match array: element 0 is the matched text, element [n] the [n]-th
    capture group or [undefined]. *)
Record matchArray : Type := MatchArray {
  matched : jsstring;
  groups : captures
}.

Definition at_ (m : matchArray) (n : nat) : option jsstring :=
  match n with
  | O => Some (matched m)
  | S _ => group (groups m) n
  end.

(** [RegExp.prototype.exec] without the global and sticky flags: the first
    start index, from the left, at which the pattern matches. *)
Fixpoint execFrom (r : regex) (i : nat) (s : jsstring) : option matchArray :=
  match rmatch r i s [] (fun j _ cs => Some (MatchArray (firstn (j - i) s) cs)) with
  | Some m => Some m
  | None =>
      match s with
      | [] => None
      | _ :: t => execFrom r (S i) t
      end
  end.

Definition exec (r : regex) (s : jsstring) : option matchArray :=
  execFrom r 0 s.

(** [RegExp.prototype.test]. *)
Definition test (r : regex) (s : jsstring) : bool :=
  match exec r s with
  | Some _ => true
  | None => false
  end.

(** A literal run of characters in a pattern. *)
Fixpoint rlit (s : jsstring) (rest : regex) : regex :=
  match s with
  | [] => rest
  | c :: t => RSeq (RSet (CChar c)) (rlit t rest)
  end.

End Regex.
Import Regex.

(** ** The configuration *)

Module Config.

Local Open Scope char_scope.

Definition chr (a : ascii) : unit16 := N_of_ascii a.

(** *** The verb lists *)

Definition ALLOWED_IMPERATIVE_VERBS : list jsstring :=
  map lit
  [ "accommodate"; "archive"; "auto-create"; "backport"; "backstop";
    "backtick"; "box"; "canonicalize"; "cargo"; "cherry-pick"; "chill";
    "chmod"; "choose"; "compress"; "conditionalize"; "confine";
    "constrain"; "consult"; "deny"; "derive"; "destructure";
    "differentiate"; "downgrade"; "download"; "drive"; "elaborate";
    "encode"; "execute"; "express"; "flip"; "follow"; "format";
    "genericize"; "go"; "inject"; "install"; "inventory"; "isolate";
    "label"; "label"; "launch"; "mention"; "mitigate"; "modularize";
    "mount"; "normalize"; "order"; "organize"; "output"; "overhaul";
    "patch"; "percent-encode"; "persist"; "pessimize"; "pin"; "plumb";
    "point"; "polyfill"; "prepend"; "privatize"; "quote"; "raise";
    "re-create"; "re-enable"; "reap"; "rebase"; "recommend"; "reconfigure";
    "redo"; "refer"; "render"; "renumber"; "repeat"; "rerun"; "restart";
    "retain"; "scope"; "secure"; "sign"; "solicit"; "special-case";
    "strengthen"; "stripe"; "surface"; "templatize"; "tie"; "translate";
    "truncate"; "trust"; "unmask"; "unpin"; "unset"; "unwrap"; "vend";
    "vendor"; "widen" ]%string.

Definition COMMITLINT_PLUGIN_TENSE_ALLOWLIST : list jsstring :=
  map lit
  [ "abort"; "absorb"; "abstract"; "accept"; "access"; "account";
    "acquire"; "activate"; "adapt"; "add"; "address"; "adjust"; "adopt";
    "advertise"; "align"; "allocate"; "allow"; "annotate"; "append";
    "apply"; "assert"; "assign"; "assume"; "attach"; "automatically";
    "avoid"; "bail"; "balance"; "be"; "beautify"; "better"; "bind";
    "block"; "break"; "bring"; "build"; "bump"; "cache"; "calculate";
    "call"; "cancel"; "capture"; "cast"; "catch"; "centralise";
    "centralize"; "change"; "check"; "clarify"; "clean"; "cleanup";
    "clear"; "close"; "code"; "collapse"; "collect"; "combine"; "comment";
    "compile"; "complete"; "compute"; "conditionally"; "configure";
    "consider"; "consistently"; "consolidate"; "constify"; "control";
    "convert"; "copy"; "correct"; "count"; "create"; "deal"; "debug";
    "declare"; "decode"; "decouple"; "decrease"; "deduplicate"; "default";
    "defer"; "define"; "delay"; "delete"; "demote"; "depend"; "deprecate";
    "describe"; "destroy"; "detect"; "determine"; "disable"; "disallow";
    "discard"; "display"; "distinguish"; "do"; "document"; "don't";
    "double"; "drop"; "dump"; "eliminate"; "embed"; "emit"; "emulate";
    "enable"; "encapsulate"; "enforce"; "enhance"; "ensure"; "error";
    "exclude"; "exit"; "expand"; "explain"; "export"; "expose"; "extend";
    "extract"; "factor"; "factorize"; "fail"; "fallback"; "fetch"; "fill";
    "filter"; "find"; "finish"; "fix"; "fixup"; "flush"; "fold"; "forbid";
    "force"; "free"; "fully"; "further"; "generalize"; "generate"; "get";
    "give"; "grab"; "group"; "guard"; "handle"; "have"; "hide"; "hold";
    "honor"; "honour"; "hook"; "identify"; "ignore"; "implement";
    "improve"; "include"; "increase"; "increment"; "indicate"; "init";
    "initial"; "initialise"; "initialize"; "inline"; "insert"; "integrate";
    "introduce"; "invalidate"; "invert"; "invoke"; "issue"; "keep"; "kill";
    "leave"; "let"; "lift"; "limit"; "link"; "load"; "lock"; "log"; "look";
    "lower"; "maintain"; "make"; "manage"; "map"; "mark"; "mask"; "match";
    "merge"; "migrate"; "modify"; "move"; "name"; "notify"; "nuke"; "null";
    "omit"; "on"; "open"; "optimise"; "optimize"; "override"; "parse";
    "pass"; "perform"; "permit"; "place"; "platform"; "plug"; "poll";
    "populate"; "port"; "power"; "prefer"; "prefix"; "prepare"; "preserve";
    "prevent"; "print"; "probe"; "process"; "program"; "propagate";
    "protect"; "provide"; "pull"; "purge"; "push"; "put"; "query"; "queue";
    "quiet"; "read"; "rearrange"; "record"; "reduce"; "refactor";
    "reference"; "refine"; "reformat"; "refresh"; "refuse"; "register";
    "reimplement"; "reject"; "relax"; "release"; "relicense"; "relocate";
    "rely"; "remove"; "rename"; "reorder"; "reorganise"; "reorganize";
    "repair"; "replace"; "report"; "request"; "require"; "reserve";
    "reset"; "resolve"; "respect"; "restore"; "restrict"; "restructure";
    "retrieve"; "retry"; "return"; "reuse"; "revert"; "revise"; "rework";
    "rewrite"; "rip"; "round"; "run"; "sanitise"; "sanitize"; "save";
    "schedule"; "select"; "send"; "separate"; "serialise"; "serialize";
    "set"; "setup"; "share"; "shorten"; "show"; "shrink"; "shut";
    "silence"; "simplify"; "skip"; "sort"; "specify"; "speed"; "split";
    "standardise"; "standardize"; "start"; "staticise"; "staticize";
    "stop"; "store"; "streamline"; "style"; "supply"; "support";
    "suppress"; "swap"; "switch"; "sync"; "synchronise"; "synchronize";
    "take"; "teach"; "tell"; "test"; "tidy"; "tidyup"; "tighten"; "trace";
    "track"; "treat"; "trigger"; "trim"; "try"; "tune"; "turn"; "tweak";
    "unbreak"; "unconditionally"; "unexport"; "unify"; "uninline";
    "unlock"; "unmap"; "unregister"; "update"; "upgrade"; "use"; "utilise";
    "utilize"; "validate"; "verify"; "wait"; "wake"; "warn"; "wire";
    "work"; "workaround"; "wrap"; "write"; "zero" ]%string.

(** *** What the linter hands to a rule and gets back *)

(** The [when] argument of a rule.  A rule only ever asks whether it is
    ['never']. *)
Inductive When : Type := Always | Never.

Definition isNever (w : When) : bool :=
  match w with
  | Never => true
  | Always => false
  end.

(** The parsed commit, as far as the configuration reads it: the header line
    and the three parts named by [headerCorrespondence].  [None] is [null]
    (or a field that is not there). *)
Record Parsed : Type := mkParsed {
  header : option jsstring;
  subject : option jsstring;
  component : option jsstring;
  description : option jsstring
}.

(** A rule returns [[passed]] or [[passed, message]]. *)
Definition RuleResult : Type := (bool * option jsstring)%type.

Definition passed (r : RuleResult) : bool := fst r.
Definition messageOf (r : RuleResult) : option jsstring := snd r.

(** [@commitlint/message]: the truthy parts joined by one space. *)
Definition message (input : list jsstring) : jsstring :=
  join [SP] (filter (fun p => negb (JS.eqb p [])) input).

(** [ensure.notEmpty]. *)
Definition notEmpty (value : jsstring) : bool :=
  Nat.ltb 0 (List.length value).

(** *** Custom rules *)

Section CustomSubjectCase.

(** [coreRules['subject-case']] is the linter's own rule; the configuration
    only decides what it is called with. *)
Variable coreSubjectCase : Parsed -> When -> list jsstring -> RuleResult.

Definition customSubjectCaseRule (parsed : Parsed) (when : When)
           (value : list jsstring) : RuleResult :=
  let newParsed :=
    {| header := None; subject := description parsed;
       component := None; description := None |} in
  coreSubjectCase newParsed when value.

End CustomSubjectCase.

Definition componentEmpty (parsed : Parsed) (when : When) : RuleResult :=
  let negated := isNever when in
  let notEmpty := notEmpty (orEmpty (component parsed)) in
  (if negated then notEmpty else negb notEmpty,
   Some (message [lit "subject";
                  if negated then lit "must" else lit "may not";
                  lit "be of the form <component>: <description>"])).

Definition descriptionEmpty (parsed : Parsed) (when : When) : RuleResult :=
  let negated := isNever when in
  let notEmpty := notEmpty (orEmpty (description parsed)) in
  (if negated then notEmpty else negb notEmpty,
   Some (message [lit "subject";
                  if negated then lit "must" else lit "may not";
                  lit "be of the form <component>: <description>"])).

Definition descriptionPresentImperativeTense (parsed : Parsed) (when : When)
  : RuleResult :=
  let negated := isNever when in
  let description := trim (toLowerCase (orEmpty (description parsed))) in
  let firstWord := orEmpty (hd_error (split SP description)) in
  if negb (notEmpty firstWord) then (true, None)
  else
    let allowlist :=
      ALLOWED_IMPERATIVE_VERBS ++ COMMITLINT_PLUGIN_TENSE_ALLOWLIST in
    let allowed := arrayIncludes allowlist firstWord in
    (if negated then negb allowed else allowed,
     Some (message [lit "subject";
                    if negated then lit "may not" else lit "must";
                    lit "use present imperative tense. disallowed word: ";
                    firstWord])).

(** *** Config *)

(** [ignores[0]]: PR merges are allowed. *)
Definition ignoreMerge (msg : jsstring) : bool :=
  includes msg (lit "Merge pull request #").

(** [[\w.-]] *)
Definition bumpClass : cset :=
  CUnion CWord (CUnion (CChar (chr ".")) (CChar (chr "-"))).

(** [/^bump [\w.-]+ to v?[\w.-]+$/] *)
Definition bumpPattern : regex :=
  RSeq RBol
    (rlit (lit "bump ")
       (RSeq (RPlus bumpClass)
          (rlit (lit " to ")
             (RSeq (ROpt (CChar (chr "v")))
                (RSeq (RPlus bumpClass) REol))))).

(** [ignores[1]]: "bump" commits are allowed. *)
Definition ignoreBump (msg : jsstring) : bool :=
  test bumpPattern (trim msg).

Definition ignores : list (jsstring -> bool) := [ignoreMerge; ignoreBump].

(** [[\w._-]] *)
Definition componentClass : cset :=
  CUnion CWord (CUnion (CChar (chr ".")) (CUnion (CChar (chr "_")) (CChar (chr "-")))).

(** [/^((?:([\w._-]+):\s(.+))|.+)$/] *)
Definition headerPattern : regex :=
  RSeq RBol
    (RSeq
       (RGroup 1
          (RAlt
             (RSeq (RGroup 2 (RPlus componentClass))
                (RSeq (RSet (CChar (chr ":")))
                   (RSeq (RSet CSpace)
                      (RGroup 3 (RPlus CDot)))))
             (RPlus CDot)))
       REol).

Inductive part : Type := Subject | Component | Description.

Definition headerCorrespondence : list part :=
  [Subject; Component; Description].

Definition setPart (name : part) (v : option jsstring) (c : Parsed) : Parsed :=
  match name with
  | Subject => mkParsed (header c) v (component c) (description c)
  | Component => mkParsed (header c) (subject c) v (description c)
  | Description => mkParsed (header c) (subject c) (component c) v
  end.

(** What [headerPattern] and [headerCorrespondence] mean to the commit
    parser they are options of: the header line is matched against the
    pattern, the part at position [index] of [headerCorrespondence] gets
    [match[index + 1] || null], and every part is [null] when the header
    does not match at all. *)
Fixpoint assignParts (names : list part) (index : nat)
         (m : option matchArray) (c : Parsed) : Parsed :=
  match names with
  | [] => c
  | name :: rest =>
      let v := match m with
               | Some a => orNull (at_ a (S index))
               | None => None
               end in
      assignParts rest (S index) m (setPart name v c)
  end.

Definition parseHeader (h : jsstring) : Parsed :=
  assignParts headerCorrespondence 0 (exec headerPattern h)
    (mkParsed (Some h) None None None).

(** *** The [rules] table, for the configuration's own rules *)

(** [RuleConfigSeverity]. *)
Inductive Severity : Type := Disabled | Warning | Error.

(** An entry [name: [severity, when, value]] of the table, with the rule
    already applied to its [when] and [value]. *)
Record RuleEntry : Type := mkRule {
  ruleName : jsstring;
  severity : Severity;
  check : Parsed -> RuleResult
}.

Definition disallowedCases : list jsstring :=
  map lit ["sentence-case"; "start-case"; "pascal-case"; "upper-case"]%string.

Definition pluginRules
           (coreSubjectCase : Parsed -> When -> list jsstring -> RuleResult)
  : list RuleEntry :=
  [ mkRule (lit "component-empty") Error
      (fun parsed => componentEmpty parsed Never);
    mkRule (lit "description-empty") Error
      (fun parsed => descriptionEmpty parsed Never);
    mkRule (lit "description-present-imperative-tense") Error
      (fun parsed => descriptionPresentImperativeTense parsed Always);
    mkRule (lit "custom-subject-case") Error
      (fun parsed =>
         customSubjectCaseRule coreSubjectCase parsed Never disallowedCases) ].

End Config.
Import Config.

(** ** The evaluator and the readings the properties are compared with *)

Module Model.

(** The report of the evaluator for one commit message. *)
Record EvaluationReport : Type := mkReport {
  results : list (jsstring * RuleResult);
  overallPassed : bool
}.

(** Some ignore predicate of the configuration matches the message. *)
Definition isIgnored (msg : jsstring) : bool :=
  existsb (fun ignore => ignore msg) ignores.

(** The header of a commit message is its first line. *)
Definition headerOf (msg : jsstring) : jsstring :=
  takeWhile (fun c => negb (N.eqb c LF)) msg.

Definition enabled (e : RuleEntry) : bool :=
  match severity e with
  | Disabled => false
  | _ => true
  end.

Definition countsAsFailure (parsed : Parsed) (e : RuleEntry) : bool :=
  match severity e with
  | Error => negb (passed (check e parsed))
  | _ => false
  end.

(** Modelled from the spec: the evaluator (section 4.8) belongs to the
    linter, not to the configuration; only the ignore predicates, the header
    pattern and the rule table it works with come from the source.  A
    message that an ignore predicate matches gets a report with no rule
    results and [overallPassed = true].  Any other message has its first
    line parsed and every enabled rule run on it, all results collected
    without stopping at the first failure; [overallPassed] holds when no
    rule of severity error failed. *)
Definition evaluate (rules : list RuleEntry) (msg : jsstring)
  : EvaluationReport :=
  if isIgnored msg then mkReport [] true
  else
    let parsed := parseHeader (headerOf msg) in
    let run := filter enabled rules in
    mkReport (map (fun e => (ruleName e, check e parsed)) run)
             (negb (existsb (countsAsFailure parsed) run)).

Definition inComponentClass (c : unit16) : bool := cset_mem c componentClass.
Definition inBumpClass (c : unit16) : bool := cset_mem c bumpClass.
Definition notLineTerminator (c : unit16) : bool := negb (isLineTerminator c).

(** The header pattern read as a function: the longest leading run of
    [[\w._-]], a colon, one white-space character, a non-empty remainder
    without line terminators. *)
Definition splitHeader (h : jsstring)
  : option (jsstring * unit16 * jsstring) :=
  match takeWhile inComponentClass h, dropWhile inComponentClass h with
  | _ :: _, c :: w :: rest =>
      if (N.eqb c COLON && isWhiteSpace w && notEmpty rest
          && forallb notLineTerminator rest)%bool
      then Some (takeWhile inComponentClass h, w, rest)
      else None
  | _, _ => None
  end.

Definition isSpace (c : unit16) : bool := N.eqb c SP.

(** The code units [isWhiteSpace] holds of. *)
Definition whiteSpaceUnits : jsstring :=
  [9; 10; 11; 12; 13; 32; 160; 5760; 8192; 8193; 8194; 8195; 8196; 8197;
   8198; 8199; 8200; 8201; 8202; 8232; 8233; 8239; 8287; 12288; 65279]%N.

(** The word the tense rule looks up: [firstWord] in
    [descriptionPresentImperativeTense]. *)
Definition firstWordOf (parsed : Parsed) : jsstring :=
  orEmpty (hd_error (split SP (trim (toLowerCase (orEmpty (description parsed)))))).

(** The list the tense rule looks the word up in: [allowlist] in
    [descriptionPresentImperativeTense]. *)
Definition allowlist : list jsstring :=
  ALLOWED_IMPERATIVE_VERBS ++ COMMITLINT_PLUGIN_TENSE_ALLOWLIST.

(** The first token of a string when tokens are delimited by the characters
    of [delim]. *)
Definition firstToken (delim : unit16 -> bool) (s : jsstring) : jsstring :=
  takeWhile (fun c => negb (delim c)) (dropWhile delim s).

(** The tense rule as the specification words it: an empty description
    passes, any other passes when its first white-space-delimited token,
    lower-cased, is in the allowlist. *)
Definition tensePassesAsSpecified (d : jsstring) : Prop :=
  d = [] \/ In (toLowerCase (firstToken isWhiteSpace d)) allowlist.

(** The tense rule by its first space-delimited token: a description that
    is empty once trimmed passes, any other passes when the text before the
    first space of the trimmed description, lower-cased, is in the
    allowlist. *)
Definition tensePassesBySpace (d : jsstring) : Prop :=
  trim d = [] \/ In (toLowerCase (firstToken isSpace (trim d))) allowlist.

(** A string has [sub] as a contiguous part. *)
Definition contains (s sub : jsstring) : Prop :=
  exists pre post, s = pre ++ sub ++ post.

(** A single bump line: [bump <name> to <version>], name and version
    non-empty runs of [[\w.-]]. *)
Definition isBumpLine (s : jsstring) : Prop :=
  exists name version,
    name <> [] /\ version <> [] /\
    forallb inBumpClass name = true /\ forallb inBumpClass version = true /\
    s = lit "bump " ++ name ++ lit " to " ++ version.

(** The bump pattern read as a function: the literal [bump ], the longest
    run of [[\w.-]], the literal [ to ], and a non-empty run of [[\w.-]] up
    to the end. *)
Definition bumpLineb (s : jsstring) : bool :=
  (startsWith s (lit "bump ")
   && notEmpty (takeWhile inBumpClass (skipn 5 s))
   && startsWith (dropWhile inBumpClass (skipn 5 s)) (lit " to ")
   && notEmpty (skipn 4 (dropWhile inBumpClass (skipn 5 s)))
   && forallb inBumpClass (skipn 4 (dropWhile inBumpClass (skipn 5 s))))%bool.

End Model.
Import Model.

(** ** The earlier generations of the configuration

    The file keeps two earlier generations beside the current one: one that
    uses the tense plugin as it is, with a strict header pattern, and one
    that wraps the plugin's rule in a custom rule. *)

Module Earlier.

(** [/^((\w+):\s(.+))$/], the header pattern of the generation without custom
    rules. *)
Definition headerPattern : regex :=
  RSeq RBol
    (RSeq
       (RGroup 1
          (RSeq (RGroup 2 (RPlus CWord))
             (RSeq (RSet (CChar (chr ":")))
                (RSeq (RSet CSpace)
                   (RGroup 3 (RPlus CDot))))))
       REol).

(** The header parts under that pattern; [headerCorrespondence] is the
    same. *)
Definition parseHeader (h : jsstring) : Parsed :=
  assignParts headerCorrespondence 0 (exec headerPattern h)
    (mkParsed (Some h) None None None).

Section SubjectTense.

(** The [value] of the rule is the plugin's options object; the custom rule
    hands it on untouched. *)
Variable Options : Type.

(** [tensePluginRules.rules['tense/subject-tense']] is the plugin's rule. *)
Variable pluginSubjectTense : Parsed -> When -> Options -> RuleResult.

Definition subjectTense (parsed : Parsed) (when : When) (value : Options)
  : RuleResult :=
  let copiedParsed := parsed in
  let copiedParsed :=
    mkParsed (header copiedParsed)
             (Some (toLowerCase (orEmpty (description copiedParsed))))
             (component copiedParsed) (description copiedParsed) in
  pluginSubjectTense copiedParsed when value.

End SubjectTense.

End Earlier.

(** ** The examples of the configuration's header comment *)

Example parse_good_example :
  parseHeader (lit "dog: refill water bowl")
  = mkParsed (Some (lit "dog: refill water bowl"))
             (Some (lit "dog: refill water bowl"))
             (Some (lit "dog")) (Some (lit "refill water bowl")).
Proof. vm_compute. reflexivity. Qed.

Example parse_missing_component :
  parseHeader (lit "migrate shoes to new shoe module.")
  = mkParsed (Some (lit "migrate shoes to new shoe module."))
             (Some (lit "migrate shoes to new shoe module."))
             None None.
Proof. vm_compute. reflexivity. Qed.

Example tense_good_example :
  descriptionPresentImperativeTense
    (parseHeader (lit "dungeonmaster: improve STR and CON attributes")) Always
  = (true,
     Some (lit "subject must use present imperative tense. disallowed word:  improve")).
Proof. vm_compute. reflexivity. Qed.

Example tense_bad_example :
  descriptionPresentImperativeTense
    (parseHeader (lit "dungeonmaster: Fixes a bug with STR and CON attributes"))
    Always
  = (false,
     Some (lit "subject must use present imperative tense. disallowed word:  fixes")).
Proof. vm_compute. reflexivity. Qed.

Example missing_component_verdicts :
  map (fun r => passed (snd r))
      (results (evaluate (pluginRules (fun _ _ _ => (true, None)))
                  (lit "migrate shoes to new shoe module.")))
  = [false; false; true; true].
Proof. vm_compute. reflexivity. Qed.

Example merge_commit_ignored :
  ignoreMerge (lit "Merge pull request #42 from x/y") = true.
Proof. vm_compute. reflexivity. Qed.

Example bump_commit_ignored :
  ignoreBump (lit "bump foo-pkg to v1.2.3") = true.
Proof. vm_compute. reflexivity. Qed.

(** Lower-casing beyond ASCII: the Kelvin sign, the dotted capital I, the
    final and the medial sigma, a surrogate pair, a lone surrogate. *)
Example toLowerCase_samples :
  toLowerCase [8490; 304; 32; 913; 931; 32; 913; 931; 914; 55297; 56320;
               55297; 65; 1046]%N
  = [107; 105; 775; 32; 945; 962; 32; 945; 963; 946; 55297; 56360;
     55297; 97; 1078]%N.
Proof. vm_compute. reflexivity. Qed.

Example tense_kelvin_sign :
  passed (descriptionPresentImperativeTense
            (parseHeader (lit "dog: " ++ [8490%N] ++ lit "ill the process"))
            Always)
  = true.
Proof. vm_compute. reflexivity. Qed.

(** U+FEFF is white space for [trim] and [\s] but case-ignorable for the
    sigma: the word before it is lower-cased with what follows in view. *)
Example sigma_before_byte_order_mark :
  toLowerCase [913; 931; 65279; 914]%N = [945; 963; 65279; 946]%N /\
  toLowerCase [913; 931]%N = [945; 962]%N.
Proof. split; vm_compute; reflexivity. Qed.

(** ** Lists of code units *)

Section Runs.

Variable p : unit16 -> bool.

Lemma takeWhile_dropWhile (s : jsstring) :
  takeWhile p s ++ dropWhile p s = s.
Proof.
  induction s as [|c t IH]; simpl; [reflexivity|].
  destruct (p c); simpl; [now rewrite IH | reflexivity].
Qed.

Lemma firstn_takeWhile (s : jsstring) :
  firstn (List.length (takeWhile p s)) s = takeWhile p s.
Proof.
  induction s as [|c t IH]; simpl; [reflexivity|].
  destruct (p c); simpl; [now rewrite IH | reflexivity].
Qed.

Lemma takeWhile_all (s : jsstring) : forallb p (takeWhile p s) = true.
Proof.
  induction s as [|c t IH]; simpl; [reflexivity|].
  destruct (p c) eqn:E; simpl; [now rewrite E | reflexivity].
Qed.

Lemma dropWhile_head (s : jsstring) c t :
  dropWhile p s = c :: t -> p c = false.
Proof.
  induction s as [|d u IH]; simpl; [discriminate|].
  destruct (p d) eqn:E; [exact IH|].
  intros H; injection H as -> _; exact E.
Qed.

Lemma takeWhile_app (a b : jsstring) :
  forallb p a = true ->
  match b with [] => True | c :: _ => p c = false end ->
  takeWhile p (a ++ b) = a /\ dropWhile p (a ++ b) = b.
Proof.
  intros Ha Hb. induction a as [|c t IH]; simpl in *.
  - destruct b as [|c u]; simpl; [auto|]. now rewrite Hb.
  - apply andb_prop in Ha as [Hc Ht]. rewrite Hc.
    destruct (IH Ht) as [-> ->]. auto.
Qed.

Lemma takeWhile_full (s : jsstring) :
  forallb p s = true -> takeWhile p s = s /\ dropWhile p s = [].
Proof.
  intros H. destruct (@takeWhile_app s [] H I) as [A B].
  now rewrite app_nil_r in A, B.
Qed.

Lemma dropWhile_nil_all (s : jsstring) :
  dropWhile p s = [] -> forallb p s = true.
Proof.
  induction s as [|c t IH]; simpl; [reflexivity|].
  destruct (p c); [exact IH | discriminate].
Qed.

End Runs.

(** ** The matcher on the patterns of the configuration *)

Section MatcherFacts.

Variable R : Type.

(** A greedy run followed by something that cannot start with a character of
    the run never gives a character back. *)
Lemma rstar_greedy (x : cset) (k : nat -> jsstring -> option R) :
  (forall j c t, cset_mem c x = true -> k j (c :: t) = None) ->
  forall s i,
    rstar x i s k
    = k (i + List.length (takeWhile (fun c => cset_mem c x) s))
        (dropWhile (fun c => cset_mem c x) s).
Proof.
  intros Hk. induction s as [|c t IH]; intros i; simpl.
  - now rewrite Nat.add_0_r.
  - destruct (cset_mem c x) eqn:E; simpl.
    + rewrite IH. rewrite <- plus_n_Sm. simpl.
      destruct (k _ _) eqn:Ek; [reflexivity|].
      now apply Hk.
    + now rewrite Nat.add_0_r.
Qed.

Lemma rplus_greedy (x : cset) (k : cont R) :
  (forall j c t cs, cset_mem c x = true -> k j (c :: t) cs = None) ->
  forall s i cs,
    rmatch (RPlus x) i s cs k
    = match takeWhile (fun c => cset_mem c x) s with
      | [] => None
      | _ :: _ =>
          k (i + List.length (takeWhile (fun c => cset_mem c x) s))
            (dropWhile (fun c => cset_mem c x) s) cs
      end.
Proof.
  intros Hk s i cs. destruct s as [|c t]; simpl; [reflexivity|].
  destruct (cset_mem c x) eqn:E; [|reflexivity].
  rewrite rstar_greedy by (intros; now apply Hk).
  simpl. now rewrite <- plus_n_Sm.
Qed.

End MatcherFacts.

(** With a leading [^] only the start index 0 can match. *)
Lemma execFrom_anchored (r : regex) (s : jsstring) (i : nat) :
  execFrom (RSeq RBol r) (S i) s = None.
Proof.
  revert i. induction s as [|c t IH]; intros i; simpl; [reflexivity|].
  apply IH.
Qed.

Lemma exec_anchored (r : regex) (s : jsstring) :
  exec (RSeq RBol r) s
  = rmatch r 0 s [] (fun j _ cs => Some (MatchArray (firstn (j - 0) s) cs)).
Proof.
  unfold exec. destruct s as [|c t]; simpl.
  - now destruct (rmatch r 0 [] [] _).
  - rewrite execFrom_anchored. now destruct (rmatch r 0 (c :: t) [] _).
Qed.

Section MatcherEquations.

Variable R : Type.
Variables (i : nat) (s : jsstring) (cs : captures) (k : cont R).

Lemma rmatch_seq a b :
  rmatch (RSeq a b) i s cs k
  = rmatch a i s cs (fun j u cs' => rmatch b j u cs' k).
Proof. reflexivity. Qed.

Lemma rmatch_alt a b :
  rmatch (RAlt a b) i s cs k
  = match rmatch a i s cs k with
    | Some r => Some r
    | None => rmatch b i s cs k
    end.
Proof. reflexivity. Qed.

Lemma rmatch_group n a :
  rmatch (RGroup n a) i s cs k
  = rmatch a i s cs (fun j u cs' => k j u ((n, firstn (j - i) s) :: cs')).
Proof. reflexivity. Qed.

Lemma rmatch_set x :
  rmatch (RSet x) i s cs k
  = match s with
    | c :: t => if cset_mem c x then k (S i) t cs else None
    | [] => None
    end.
Proof. reflexivity. Qed.

Lemma rmatch_eol :
  rmatch REol i s cs k
  = match s with [] => k i s cs | _ :: _ => None end.
Proof. reflexivity. Qed.

Lemma rmatch_opt x :
  rmatch (ROpt x) i s cs k
  = match s with
    | c :: t =>
        if cset_mem c x then
          match k (S i) t cs with
          | Some r => Some r
          | None => k i s cs
          end
        else k i s cs
    | [] => k i s cs
    end.
Proof. reflexivity. Qed.

End MatcherEquations.

(** A greedy run followed by something that only matches at the end of the
    input has to take the whole input. *)
Lemma rplus_to_end (R : Type) (x : cset) (k : cont R) :
  (forall j c t cs, k j (c :: t) cs = None) ->
  forall s i cs,
    rmatch (RPlus x) i s cs k
    = if (Nat.ltb 0 (List.length s) && forallb (fun c => cset_mem c x) s)%bool
      then k (i + List.length s) [] cs
      else None.
Proof.
  intros Hk s i cs. rewrite rplus_greedy by (intros; apply Hk).
  destruct (forallb (fun c => cset_mem c x) s) eqn:E.
  - destruct (takeWhile_full _ _ E) as [-> ->].
    destruct s; reflexivity.
  - rewrite andb_false_r.
    destruct (dropWhile (fun c => cset_mem c x) s) as [|c t] eqn:D.
    + apply dropWhile_nil_all in D. congruence.
    + rewrite Hk. now destruct (takeWhile _ s).
Qed.


(** ** The header pattern *)

Lemma componentClass_not_colon (c : unit16) :
  cset_mem c componentClass = true -> N.eqb c (chr ":") = false.
Proof.
  intros H. destruct (N.eqb_spec c (chr ":")) as [->|]; [|reflexivity].
  vm_compute in H. discriminate.
Qed.

Lemma exec_headerPattern (h : jsstring) :
  exec headerPattern h
  = match splitHeader h with
    | Some (tok, w, rest) =>
        Some (MatchArray h [(1, h); (3, rest); (2, tok)])
    | None =>
        if (notEmpty h && forallb notLineTerminator h)%bool
        then Some (MatchArray h [(1, h)])
        else None
    end.
Proof.
  unfold headerPattern. rewrite exec_anchored.
  rewrite rmatch_seq, rmatch_group, rmatch_alt.
  rewrite rmatch_seq, rmatch_group.
  rewrite rplus_greedy.
  2:{ intros j c t cs Hc. rewrite rmatch_seq, rmatch_set. cbn [cset_mem].
      now rewrite componentClass_not_colon. }
  rewrite (@rplus_to_end _ CDot) by reflexivity.
  rewrite rmatch_eol.
  change (fun c => cset_mem c CDot) with notLineTerminator.
  change (fun c => cset_mem c componentClass) with inComponentClass.
  change (Nat.ltb 0 (List.length h)) with (notEmpty h).
  replace (firstn (0 + List.length h - 0) h) with h
    by (simpl; now rewrite Nat.sub_0_r, firstn_all).
  unfold splitHeader.
  pose proof (takeWhile_dropWhile inComponentClass h) as Hh.
  pose proof (firstn_takeWhile inComponentClass h) as Hf.
  destruct (takeWhile inComponentClass h) as [|t0 tw] eqn:Etw; [reflexivity|].
  destruct (dropWhile inComponentClass h) as [|c [|w rest]] eqn:Edw.
  - reflexivity.
  - rewrite rmatch_seq, rmatch_set. cbn [cset_mem].
    now destruct (N.eqb c (chr ":")).
  - rewrite rmatch_seq, rmatch_set. cbn [cset_mem].
    change (chr ":") with COLON.
    destruct (N.eqb c COLON) eqn:Ec; [|reflexivity].
    rewrite rmatch_seq, rmatch_set. cbn [cset_mem].
    destruct (isWhiteSpace w) eqn:Ew; [|reflexivity].
    rewrite rmatch_group, (@rplus_to_end _ CDot) by reflexivity.
    change (fun c => cset_mem c CDot) with notLineTerminator.
    change (Nat.ltb 0 (List.length rest)) with (notEmpty rest).
    cbn [andb].
    destruct (notEmpty rest && forallb notLineTerminator rest)%bool;
      [|reflexivity].
    rewrite rmatch_eol.
    set (n := List.length (t0 :: tw)) in *.
    replace (0 + n - 0) with n by lia.
    replace (S (S (0 + n)) + List.length rest - S (S (0 + n)))
      with (List.length rest) by lia.
    replace (S (S (0 + n)) + List.length rest - 0) with (List.length h).
    2:{ rewrite <- Hh, length_app. simpl List.length. subst n. simpl. lia. }
    now rewrite Hf, !firstn_all.
Qed.

Lemma splitHeader_Some (h tok rest : jsstring) (w : unit16) :
  splitHeader h = Some (tok, w, rest) ->
  h = tok ++ COLON :: w :: rest /\ tok <> [] /\
  forallb inComponentClass tok = true /\ isWhiteSpace w = true /\
  rest <> [] /\ forallb notLineTerminator rest = true.
Proof.
  unfold splitHeader.
  pose proof (takeWhile_dropWhile inComponentClass h) as Hh.
  pose proof (takeWhile_all inComponentClass h) as Ha.
  destruct (takeWhile inComponentClass h) as [|t0 tw]; [discriminate|].
  destruct (dropWhile inComponentClass h) as [|c [|w' rest']];
    try discriminate.
  destruct (N.eqb_spec c COLON) as [->|]; [|discriminate].
  destruct (isWhiteSpace w') eqn:Ew; [|discriminate].
  destruct rest' as [|r0 rest']; [discriminate|].
  cbn [andb notEmpty List.length Nat.ltb Nat.leb].
  destruct (forallb notLineTerminator (r0 :: rest')) eqn:Er; [|discriminate].
  intros H. injection H as <- <- <-.
  repeat split; auto; discriminate.
Qed.

Lemma splitHeader_shape (tok rest : jsstring) (w : unit16) :
  tok <> [] -> forallb inComponentClass tok = true ->
  isWhiteSpace w = true ->
  rest <> [] -> forallb notLineTerminator rest = true ->
  splitHeader (tok ++ COLON :: w :: rest) = Some (tok, w, rest).
Proof.
  intros Ht Hc Hw Hr Hl. unfold splitHeader.
  destruct (@takeWhile_app inComponentClass tok (COLON :: w :: rest) Hc)
    as [-> ->]; [reflexivity|].
  destruct tok as [|t0 tw]; [congruence|].
  rewrite N.eqb_refl, Hw, Hl.
  destruct rest; [congruence|reflexivity].
Qed.

(** The parser's result, by cases on the shape of the header. *)
Lemma parseHeader_cases (h : jsstring) :
  parseHeader h
  = match splitHeader h with
    | Some (tok, _, rest) => mkParsed (Some h) (Some h) (Some tok) (Some rest)
    | None =>
        if (notEmpty h && forallb notLineTerminator h)%bool
        then mkParsed (Some h) (Some h) None None
        else mkParsed (Some h) None None None
    end.
Proof.
  unfold parseHeader. rewrite exec_headerPattern.
  destruct (splitHeader h) as [[[tok w] rest]|] eqn:E.
  - apply splitHeader_Some in E as (-> & Ht & _ & _ & Hr & _).
    destruct tok; [congruence|]. destruct rest; [congruence|]. reflexivity.
  - destruct h as [|c t]; [reflexivity|].
    cbn [notEmpty List.length Nat.ltb Nat.leb andb].
    now destruct (forallb notLineTerminator (c :: t)).
Qed.

Lemma no_colon_no_split (h : jsstring) :
  ~ In COLON h -> splitHeader h = None.
Proof.
  intros Hn. destruct (splitHeader h) as [[[tok w] rest]|] eqn:E;
    [|reflexivity].
  apply splitHeader_Some in E as (-> & _). exfalso. apply Hn.
  apply in_or_app. right. now left.
Qed.


(** ** Properties of the header parser and the presence rules *)

Lemma not_In_unit (x : unit16) (s : jsstring) :
  existsb (N.eqb x) s = false -> ~ In x s.
Proof.
  intros H Hin.
  assert (existsb (N.eqb x) s = true) as E
    by (apply existsb_exists; exists x; split; [exact Hin | apply N.eqb_refl]).
  congruence.
Qed.

(** C2, as stated, does not hold: the token [feat(x)] has no white space and
    the remainder [add y] is not empty, yet the header [feat(x): add y] is
    not split; the parentheses are outside [[\w._-]]. *)
Lemma parse_token_outside_class :
  forallb (fun c => negb (isWhiteSpace c)) (lit "feat(x)") = true /\
  lit "add y" <> [] /\
  ~ (component (parseHeader (lit "feat(x)" ++ lit ": " ++ lit "add y"))
     = Some (lit "feat(x)") /\
     description (parseHeader (lit "feat(x)" ++ lit ": " ++ lit "add y"))
     = Some (lit "add y")).
Proof.
  split; [reflexivity|]. split; [discriminate|].
  intros [H _]. vm_compute in H. discriminate.
Qed.

(** C2, amended: for every header [token ++ ": " ++ rest] where [token] is a
    non-empty run of word characters, dots, underscores and hyphens and
    [rest] is non-empty and has no line terminator, parsing yields
    [component = token] and [description = rest]. *)
Theorem parse_component_description (token rest : jsstring) :
  token <> [] -> forallb inComponentClass token = true ->
  rest <> [] -> forallb notLineTerminator rest = true ->
  component (parseHeader (token ++ lit ": " ++ rest)) = Some token /\
  description (parseHeader (token ++ lit ": " ++ rest)) = Some rest.
Proof.
  intros Ht Hc Hr Hl. rewrite parseHeader_cases.
  change (token ++ lit ": " ++ rest) with (token ++ COLON :: SP :: rest).
  rewrite splitHeader_shape by (auto; reflexivity).
  split; reflexivity.
Qed.

Lemma parse_component_description_witness :
  component (parseHeader (lit "dog" ++ lit ": " ++ lit "refill water bowl"))
  = Some (lit "dog") /\
  description (parseHeader (lit "dog" ++ lit ": " ++ lit "refill water bowl"))
  = Some (lit "refill water bowl").
Proof.
  apply (@parse_component_description (lit "dog") (lit "refill water bowl"));
    [discriminate | reflexivity | discriminate | reflexivity].
Defined.

(** C3, as stated, does not hold: the header
    [migrate shoes to new shoe module.] has no colon, and its parsed
    description is [null], not the header line. *)
Lemma parse_without_colon_description_not_header :
  ~ In COLON (lit "migrate shoes to new shoe module.") /\
  description (parseHeader (lit "migrate shoes to new shoe module.")) = None /\
  orEmpty (description (parseHeader (lit "migrate shoes to new shoe module.")))
  <> lit "migrate shoes to new shoe module.".
Proof.
  split; [apply not_In_unit; reflexivity|].
  split; [reflexivity|]. vm_compute. discriminate.
Qed.

(** C3, amended: for every header without a colon, parsing returns a parsed
    header (it never fails) whose component and description are both [null],
    so both read as the empty string; the whole line is kept as the header
    and, when it is non-empty and has no line terminator, as the subject. *)
Theorem parse_without_colon (h : jsstring) :
  ~ In COLON h ->
  component (parseHeader h) = None /\
  description (parseHeader h) = None /\
  orEmpty (component (parseHeader h)) = [] /\
  orEmpty (description (parseHeader h)) = [] /\
  header (parseHeader h) = Some h /\
  subject (parseHeader h)
  = if (notEmpty h && forallb notLineTerminator h)%bool then Some h else None.
Proof.
  intros Hn. rewrite parseHeader_cases, (no_colon_no_split h Hn).
  destruct (notEmpty h && forallb notLineTerminator h)%bool;
    repeat split; reflexivity.
Qed.

Lemma parse_without_colon_witness :
  component (parseHeader (lit "migrate shoes")) = None /\
  description (parseHeader (lit "migrate shoes")) = None /\
  orEmpty (component (parseHeader (lit "migrate shoes"))) = [] /\
  orEmpty (description (parseHeader (lit "migrate shoes"))) = [] /\
  header (parseHeader (lit "migrate shoes")) = Some (lit "migrate shoes") /\
  subject (parseHeader (lit "migrate shoes"))
  = if (notEmpty (lit "migrate shoes")
        && forallb notLineTerminator (lit "migrate shoes"))%bool
    then Some (lit "migrate shoes") else None.
Proof.
  apply (@parse_without_colon (lit "migrate shoes")).
  apply not_In_unit. reflexivity.
Defined.

(** C5, as stated, does not hold: the header [dog:] has a component token
    and no description, and the component rule fails on it together with the
    description rule. *)
Lemma component_token_alone_fails_both_rules :
  passed (descriptionEmpty (parseHeader (lit "dog:")) Never) = false /\
  passed (componentEmpty (parseHeader (lit "dog:")) Never) = false.
Proof. split; reflexivity. Qed.

(** C5, amended: the two rules are independent as functions of the parsed
    header: [component-empty] (configured [never]) passes exactly when the
    parsed component is non-empty, [description-empty] exactly when the
    parsed description is non-empty.  On the parsed form of every header
    the two verdicts are the same, because the pattern captures a component
    and a description together or not at all, and both rules carry the same
    message. *)
Theorem presence_rules_by_field (p : Parsed) (h : jsstring) :
  passed (componentEmpty p Never) = notEmpty (orEmpty (component p)) /\
  passed (descriptionEmpty p Never) = notEmpty (orEmpty (description p)) /\
  passed (componentEmpty (parseHeader h) Never)
  = passed (descriptionEmpty (parseHeader h) Never) /\
  messageOf (componentEmpty p Never) = messageOf (descriptionEmpty p Never).
Proof.
  repeat split.
  rewrite parseHeader_cases.
  destruct (splitHeader h) as [[[tok w] rest]|] eqn:E.
  - apply splitHeader_Some in E as (_ & Ht & _ & _ & Hr & _).
    destruct tok; [congruence|]. destruct rest; [congruence|]. reflexivity.
  - now destruct (notEmpty h && forallb notLineTerminator h)%bool.
Qed.

(** C6, as stated, does not hold: in [dog:<TAB>foo] the pattern's [\s]
    matches a tab; component and description are [dog] and [foo], and
    joining them with a colon and a space does not give the header back. *)
Lemma header_with_tab_not_reassembled :
  component (parseHeader (lit "dog:" ++ [TAB] ++ lit "foo")) = Some (lit "dog") /\
  description (parseHeader (lit "dog:" ++ [TAB] ++ lit "foo")) = Some (lit "foo") /\
  lit "dog" ++ lit ": " ++ lit "foo" <> lit "dog:" ++ [TAB] ++ lit "foo".
Proof.
  split; [reflexivity|]. split; [reflexivity|]. vm_compute. discriminate.
Qed.

(** C6, amended: for every header whose parse yields a component and a
    description (both are then non-empty), the header is the component, a
    colon, the one white-space character that [\s] matched, and the
    description; when that character is a space,
    [component + ": " + description] is the raw header. *)
Theorem header_reassembles (h c d : jsstring) :
  component (parseHeader h) = Some c ->
  description (parseHeader h) = Some d ->
  c <> [] /\ d <> [] /\
  exists w, isWhiteSpace w = true /\ h = c ++ COLON :: w :: d /\
            (w = SP -> c ++ lit ": " ++ d = h).
Proof.
  rewrite parseHeader_cases.
  destruct (splitHeader h) as [[[tok w] rest]|] eqn:E.
  - apply splitHeader_Some in E as (-> & Ht & _ & Hw & Hr & _).
    cbn [component description]. intros [= <-] [= <-].
    repeat split; auto. exists w. repeat split; auto.
    intros ->. reflexivity.
  - destruct (notEmpty h && forallb notLineTerminator h)%bool; discriminate.
Qed.

Lemma header_reassembles_witness :
  lit "dog" <> [] /\ lit "refill water bowl" <> [] /\
  exists w, isWhiteSpace w = true /\
            lit "dog: refill water bowl"
            = lit "dog" ++ COLON :: w :: lit "refill water bowl" /\
            (w = SP ->
             lit "dog" ++ lit ": " ++ lit "refill water bowl"
             = lit "dog: refill water bowl").
Proof.
  apply (@header_reassembles (lit "dog: refill water bowl")
           (lit "dog") (lit "refill water bowl")); reflexivity.
Defined.


(** ** Lower-casing and white space

    Lower-casing works on code points and looks around a capital sigma, but
    it neither makes nor changes white space: a white-space code unit is no
    surrogate, is not cased and is its own lower case, and no lower-case
    mapping produces one.  Only U+FEFF among the white space is
    case-ignorable, so that the context of a sigma reaches across it. *)

Lemma whiteSpace_enum (w : unit16) :
  isWhiteSpace w = true -> In w whiteSpaceUnits.
Proof.
  unfold isWhiteSpace, isLineTerminator, between, whiteSpaceUnits.
  rewrite !orb_true_iff, !andb_true_iff, !N.leb_le, !N.eqb_eq.
  cbn [In]. lia.
Qed.

Lemma whiteSpace_plain (w : unit16) :
  isWhiteSpace w = true ->
  isLeadSurrogate w = false /\ isTrailSurrogate w = false /\
  codePointToUnits w = [w] /\ Unicode.cased w = false /\
  (forall before after, Unicode.lowercaseAt before w after = [w]).
Proof.
  intros H. apply whiteSpace_enum in H. unfold whiteSpaceUnits in H.
  cbn [In] in H.
  repeat (destruct H as [<-|H];
          [repeat split; intros; vm_compute; reflexivity|]).
  contradiction.
Qed.

Lemma whiteSpace_bound (w : unit16) :
  isWhiteSpace w = true -> (w < 55296 \/ 57343 < w < 65536)%N.
Proof.
  intros H. apply whiteSpace_enum in H. unfold whiteSpaceUnits in H.
  cbn [In] in H. lia.
Qed.

Lemma pair_ind (P : jsstring -> Prop) :
  P [] -> (forall h, P [h]) ->
  (forall h l t, P t -> P (l :: t) -> P (h :: l :: t)) ->
  forall s, P s.
Proof.
  intros H0 H1 H2 s.
  assert (P s /\ forall h, P (h :: s)) as [H _]; [|exact H].
  induction s as [|l t [IH1 IH2]]; [now split|].
  split; [apply IH2|]. intros h. apply H2; [exact IH1 | apply IH2].
Qed.

Lemma stringToCodePoints_cons_plain (w : unit16) (b : jsstring) :
  isLeadSurrogate w = false ->
  stringToCodePoints (w :: b) = w :: stringToCodePoints b.
Proof. intros H. cbn [stringToCodePoints]. rewrite H. now destruct b. Qed.

Lemma stringToCodePoints_sep (a b : jsstring) (w : unit16) :
  isLeadSurrogate w = false -> isTrailSurrogate w = false ->
  stringToCodePoints (a ++ w :: b)
  = stringToCodePoints a ++ w :: stringToCodePoints b.
Proof.
  intros Hl Ht. induction a as [|h|h l t IH1 IH2] using pair_ind.
  - now apply stringToCodePoints_cons_plain.
  - cbn [app]. change (stringToCodePoints (h :: w :: b))
      with (if (isLeadSurrogate h && isTrailSurrogate w)%bool
            then (65536 + (h - 55296) * 1024 + (w - 56320))%N
                 :: stringToCodePoints b
            else h :: stringToCodePoints (w :: b)).
    rewrite Ht, andb_false_r.
    now rewrite stringToCodePoints_cons_plain.
  - cbn [app]. change (stringToCodePoints (h :: l :: t ++ w :: b))
      with (if (isLeadSurrogate h && isTrailSurrogate l)%bool
            then (65536 + (h - 55296) * 1024 + (l - 56320))%N
                 :: stringToCodePoints (t ++ w :: b)
            else h :: stringToCodePoints (l :: t ++ w :: b)).
    change (stringToCodePoints (h :: l :: t))
      with (if (isLeadSurrogate h && isTrailSurrogate l)%bool
            then (65536 + (h - 55296) * 1024 + (l - 56320))%N
                 :: stringToCodePoints t
            else h :: stringToCodePoints (l :: t)).
    destruct (isLeadSurrogate h && isTrailSurrogate l)%bool.
    + now rewrite IH1.
    + change (l :: t ++ w :: b) with ((l :: t) ++ w :: b). now rewrite IH2.
Qed.

Lemma casedAhead_sep (p q : list N) (w : N) :
  Unicode.caseIgnorable w = false -> Unicode.cased w = false ->
  Unicode.casedAhead (p ++ w :: q) = Unicode.casedAhead p.
Proof.
  intros Hi Hc. induction p as [|c p IH]; cbn [app Unicode.casedAhead].
  - now rewrite Hi.
  - now rewrite IH.
Qed.

Lemma toLowercaseFrom_before (b1 b2 x : list N) :
  (forall p, Unicode.casedAhead (p ++ b1) = Unicode.casedAhead (p ++ b2)) ->
  Unicode.toLowercaseFrom b1 x = Unicode.toLowercaseFrom b2 x.
Proof.
  revert b1 b2. induction x as [|c x IH]; intros b1 b2 H; [reflexivity|].
  cbn [Unicode.toLowercaseFrom]. f_equal.
  - unfold Unicode.lowercaseAt, Unicode.finalSigma.
    pose proof (H []) as H0. cbn [app] in H0. now rewrite H0.
  - apply IH. intros p. specialize (H (p ++ [c])).
    now rewrite <- !app_assoc in H.
Qed.

Lemma casedAhead_whiteSpace (p : list N) (w : N) :
  Unicode.cased w = false ->
  Unicode.casedAhead (p ++ [w]) = Unicode.casedAhead p.
Proof.
  intros Hc. induction p as [|c p IH]; cbn [app Unicode.casedAhead].
  - rewrite Hc. now destruct (Unicode.caseIgnorable w).
  - now rewrite IH.
Qed.

Lemma toLowercaseFrom_sep (before x y : list N) (w : N) :
  Unicode.caseIgnorable w = false -> Unicode.cased w = false ->
  (forall b a, Unicode.lowercaseAt b w a = [w]) ->
  Unicode.toLowercaseFrom before (x ++ w :: y)
  = Unicode.toLowercaseFrom before x ++ w :: Unicode.toLowercaseFrom [] y.
Proof.
  intros Hi Hc Hw. revert before.
  induction x as [|c x IH]; intros before; cbn [app Unicode.toLowercaseFrom].
  - rewrite Hw. cbn [app]. f_equal.
    apply toLowercaseFrom_before. intros p.
    now rewrite casedAhead_sep, app_nil_r.
  - rewrite IH, <- app_assoc. f_equal.
    unfold Unicode.lowercaseAt, Unicode.finalSigma.
    now rewrite casedAhead_sep.
Qed.

(** Lower-casing goes through a white-space code unit that is not
    case-ignorable: each side is lower-cased by itself. *)
Lemma toLowerCase_sep (a b : jsstring) (w : unit16) :
  isWhiteSpace w = true -> Unicode.caseIgnorable w = false ->
  toLowerCase (a ++ w :: b) = toLowerCase a ++ w :: toLowerCase b.
Proof.
  intros H Hi. destruct (whiteSpace_plain w H) as (Hl & Ht & Hu & Hc & Hw).
  unfold toLowerCase, Unicode.toLowercase, codePointsToString.
  rewrite stringToCodePoints_sep, toLowercaseFrom_sep by assumption.
  rewrite flat_map_app. cbn [flat_map]. now rewrite Hu.
Qed.

Lemma toLowercaseFrom_snoc (before x : list N) (w : N) :
  Unicode.cased w = false ->
  (forall b a, Unicode.lowercaseAt b w a = [w]) ->
  Unicode.toLowercaseFrom before (x ++ [w])
  = Unicode.toLowercaseFrom before x ++ [w].
Proof.
  intros Hc Hw. revert before.
  induction x as [|c x IH]; intros before; cbn [app Unicode.toLowercaseFrom].
  - now rewrite Hw.
  - rewrite IH, <- app_assoc. f_equal.
    unfold Unicode.lowercaseAt, Unicode.finalSigma.
    now rewrite casedAhead_whiteSpace.
Qed.

(** White space at either end of a string stays where it is. *)
Lemma toLowerCase_cons (w : unit16) (s : jsstring) :
  isWhiteSpace w = true -> toLowerCase (w :: s) = w :: toLowerCase s.
Proof.
  intros H. destruct (whiteSpace_plain w H) as (Hl & Ht & Hu & Hc & Hw).
  unfold toLowerCase, Unicode.toLowercase, codePointsToString.
  rewrite stringToCodePoints_cons_plain by assumption.
  cbn [Unicode.toLowercaseFrom]. rewrite Hw. cbn [app flat_map].
  rewrite Hu. cbn [app]. do 2 f_equal.
  apply toLowercaseFrom_before. intros p.
  now rewrite casedAhead_whiteSpace, app_nil_r.
Qed.

Lemma toLowerCase_snoc (w : unit16) (s : jsstring) :
  isWhiteSpace w = true -> toLowerCase (s ++ [w]) = toLowerCase s ++ [w].
Proof.
  intros H. destruct (whiteSpace_plain w H) as (Hl & Ht & Hu & Hc & Hw).
  unfold toLowerCase, Unicode.toLowercase, codePointsToString.
  rewrite (stringToCodePoints_sep s [] w Hl Ht).
  cbn [stringToCodePoints]. rewrite toLowercaseFrom_snoc by assumption.
  rewrite flat_map_app. cbn [flat_map]. now rewrite Hu.
Qed.

Lemma stringToCodePoints_origin (a : jsstring) (c : N) :
  In c (stringToCodePoints a) -> In c a \/ (65536 <= c <= 1114111)%N.
Proof.
  induction a as [|h|h l t IH1 IH2] using pair_ind.
  - intros [].
  - cbn. tauto.
  - change (stringToCodePoints (h :: l :: t))
      with (if (isLeadSurrogate h && isTrailSurrogate l)%bool
            then (65536 + (h - 55296) * 1024 + (l - 56320))%N
                 :: stringToCodePoints t
            else h :: stringToCodePoints (l :: t)).
    destruct (isLeadSurrogate h && isTrailSurrogate l)%bool eqn:E.
    + apply andb_prop in E as [Eh El].
      unfold isLeadSurrogate, isTrailSurrogate, between in Eh, El.
      rewrite andb_true_iff, !N.leb_le in Eh, El.
      intros [<-|H]; [right; lia|].
      destruct (IH1 H) as [H'|H']; [left; now do 2 right | now right].
    + intros [<-|H]; [left; now left|].
      destruct (IH2 H) as [H'|H']; [left; now right | now right].
Qed.

Lemma codePointToUnits_whiteSpace (c : N) (u : unit16) :
  In u (codePointToUnits c) -> isWhiteSpace u = true -> u = c.
Proof.
  unfold codePointToUnits.
  destruct (N.ltb c 65536 || N.ltb 1114111 c)%bool eqn:E.
  - intros [<-|[]]. reflexivity.
  - apply orb_false_iff in E as [E1 E2].
    apply N.ltb_ge in E1, E2.
    assert ((c - 65536) / 1024 < 1024)%N
      by (apply N.Div0.div_lt_upper_bound; lia).
    assert ((c - 65536) mod 1024 < 1024)%N
      by (apply N.mod_upper_bound; lia).
    set (q := ((c - 65536) / 1024)%N) in *.
    set (r := ((c - 65536) mod 1024)%N) in *. clearbody q r.
    intros [<-|[<-|[]]] Hw; apply whiteSpace_bound in Hw; lia.
Qed.

Lemma lookup_In (c d : N) (table : list (N * N)) :
  Unicode.lookup c table = Some d -> In (c, d) table.
Proof.
  induction table as [|[from to] rest IH]; cbn [Unicode.lookup];
    [discriminate|].
  destruct (N.eqb_spec c from) as [->|].
  - intros [= ->]. now left.
  - intros H. right. now apply IH.
Qed.

Lemma lowercaseMapping_no_whiteSpace (c d : N) (u : unit16) :
  In (c, d) Unicode.lowercaseMapping ->
  In u (codePointToUnits d) -> isWhiteSpace u = false.
Proof.
  assert (forallb (fun e => forallb (fun u => negb (isWhiteSpace u))
                              (codePointToUnits (snd e)))
            Unicode.lowercaseMapping = true) as H
    by (vm_compute; reflexivity).
  rewrite forallb_forall in H. intros Hin Hu. apply H in Hin.
  cbn [snd] in Hin. rewrite forallb_forall in Hin. apply Hin in Hu.
  now destruct (isWhiteSpace u).
Qed.

(** A white-space code unit in the lower case of a code point is that code
    point itself. *)
Lemma lowercaseAt_whiteSpace (before after : list N) (c o : N) (u : unit16) :
  In o (Unicode.lowercaseAt before c after) ->
  In u (codePointToUnits o) -> isWhiteSpace u = true -> u = c.
Proof.
  unfold Unicode.lowercaseAt.
  destruct (N.eqb c 304).
  { intros [<-|[<-|[]]] [<-|[]] H; vm_compute in H; discriminate. }
  destruct (N.eqb c 931).
  { destruct (Unicode.finalSigma before after);
      intros [<-|[]] [<-|[]] H; vm_compute in H; discriminate. }
  unfold Unicode.simpleLowercase.
  destruct (Unicode.lookup c Unicode.lowercaseMapping) as [d|] eqn:E.
  - intros [<-|[]] Hu Hw. apply lookup_In in E.
    rewrite (@lowercaseMapping_no_whiteSpace _ _ _ E Hu) in Hw. discriminate.
  - intros [<-|[]]. apply codePointToUnits_whiteSpace.
Qed.

Lemma toLowercaseFrom_In (before x : list N) (o : N) :
  In o (Unicode.toLowercaseFrom before x) ->
  exists b c a, In c x /\ In o (Unicode.lowercaseAt b c a).
Proof.
  revert before. induction x as [|c x IH]; intros before; [intros []|].
  cbn [Unicode.toLowercaseFrom]. intros H.
  apply in_app_or in H as [H|H].
  - exists before, c, x. split; [now left | exact H].
  - destruct (IH _ H) as (b & c' & a & Hc & Ho).
    exists b, c', a. split; [now right | exact Ho].
Qed.

(** Lower-casing makes no white space: a white-space code unit of the lower
    case is a code unit of the string. *)
Lemma toLowerCase_whiteSpace_origin (a : jsstring) (u : unit16) :
  In u (toLowerCase a) -> isWhiteSpace u = true -> In u a.
Proof.
  unfold toLowerCase, codePointsToString, Unicode.toLowercase.
  intros H Hw. apply in_flat_map in H as (o & Ho & Hu).
  apply toLowercaseFrom_In in Ho as (b & c & a' & Hc & Ho).
  pose proof (@lowercaseAt_whiteSpace _ _ _ _ _ Ho Hu Hw) as ->.
  apply stringToCodePoints_origin in Hc as [Hc|Hc]; [exact Hc|].
  apply whiteSpace_bound in Hw. lia.
Qed.

Lemma toLowerCase_nil (s : jsstring) : toLowerCase s = [] <-> s = [].
Proof.
  split; [|now intros ->].
  destruct s as [|h t]; [reflexivity|].
  unfold toLowerCase, codePointsToString, Unicode.toLowercase.
  assert (exists c x, stringToCodePoints (h :: t) = c :: x) as (c & x & ->).
  { cbn [stringToCodePoints]. destruct t as [|l t]; [eauto|].
    destruct (isLeadSurrogate h && isTrailSurrogate l)%bool; eauto. }
  cbn [Unicode.toLowercaseFrom]. rewrite flat_map_app.
  assert (exists o r, Unicode.lowercaseAt [] c x = o :: r) as (o & r & ->).
  { unfold Unicode.lowercaseAt. destruct (N.eqb c 304); [eauto|].
    destruct (N.eqb c 931); [|eauto].
    destruct (Unicode.finalSigma [] x); eauto. }
  cbn [flat_map]. unfold codePointToUnits at 1.
  destruct (N.ltb o 65536 || N.ltb 1114111 o)%bool; discriminate.
Qed.

Lemma lowercaseAt_units_whiteSpace_free (before after : list N) (c : N) :
  (isWhiteSpace c = false \/ (65536 <= c)%N) ->
  forallb (fun u => negb (isWhiteSpace u))
    (flat_map codePointToUnits (Unicode.lowercaseAt before c after)) = true.
Proof.
  intros Hc. apply forallb_forall. intros u Hu.
  apply in_flat_map in Hu as (o & Ho & Hu).
  destruct (isWhiteSpace u) eqn:E; [|reflexivity].
  pose proof (@lowercaseAt_whiteSpace _ _ _ _ _ Ho Hu E) as ->.
  destruct Hc as [Hc|Hc]; [congruence|].
  apply whiteSpace_bound in E. lia.
Qed.

Lemma lowercaseAt_nonempty (before after : list N) (c : N) :
  flat_map codePointToUnits (Unicode.lowercaseAt before c after) <> [].
Proof.
  assert (forall o r, flat_map codePointToUnits (o :: r) <> []) as H.
  { intros o r. cbn [flat_map]. unfold codePointToUnits at 1.
    destruct (N.ltb o 65536 || N.ltb 1114111 o)%bool; discriminate. }
  unfold Unicode.lowercaseAt. destruct (N.eqb c 304); [apply H|].
  destruct (N.eqb c 931); [|apply H].
  destruct (Unicode.finalSigma before after); apply H.
Qed.

Lemma stringToCodePoints_head (c : unit16) (t : jsstring) :
  exists cp rest,
    stringToCodePoints (c :: t) = cp :: rest /\ (cp = c \/ (65536 <= cp)%N).
Proof.
  cbn [stringToCodePoints]. destruct t as [|l t]; [eauto|].
  destruct (isLeadSurrogate c && isTrailSurrogate l)%bool; eauto.
  eexists _, _. split; [reflexivity|]. right. lia.
Qed.

Lemma stringToCodePoints_last (t : jsstring) (x : unit16) :
  exists pre cp,
    stringToCodePoints (t ++ [x]) = pre ++ [cp] /\ (cp = x \/ (65536 <= cp)%N).
Proof.
  induction t as [|h|h l t IH1 IH2] using pair_ind.
  - exists [], x. auto.
  - cbn [app]. change (stringToCodePoints [h; x])
      with (if (isLeadSurrogate h && isTrailSurrogate x)%bool
            then [(65536 + (h - 55296) * 1024 + (x - 56320))%N]
            else [h; x]).
    destruct (isLeadSurrogate h && isTrailSurrogate x)%bool.
    + eexists [], _. split; [reflexivity|]. right. lia.
    + exists [h], x. auto.
  - cbn [app]. change (stringToCodePoints (h :: l :: t ++ [x]))
      with (if (isLeadSurrogate h && isTrailSurrogate l)%bool
            then (65536 + (h - 55296) * 1024 + (l - 56320))%N
                 :: stringToCodePoints (t ++ [x])
            else h :: stringToCodePoints ((l :: t) ++ [x])).
    destruct (isLeadSurrogate h && isTrailSurrogate l)%bool.
    + destruct IH1 as (pre & cp & -> & H).
      exists ((65536 + (h - 55296) * 1024 + (l - 56320))%N :: pre), cp. auto.
    + destruct IH2 as (pre & cp & -> & H). exists (h :: pre), cp. auto.
Qed.

Lemma toLowercaseFrom_last (before pre : list N) (c : N) :
  exists X b,
    Unicode.toLowercaseFrom before (pre ++ [c])
    = X ++ Unicode.lowercaseAt b c [].
Proof.
  revert before. induction pre as [|d pre IH]; intros before.
  - exists [], before. cbn. now rewrite app_nil_r.
  - cbn [app Unicode.toLowercaseFrom].
    destruct (IH (d :: before)) as (X & b & E).
    exists (Unicode.lowercaseAt before d (pre ++ [c]) ++ X), b.
    now rewrite E, app_assoc.
Qed.

(** The lower case of a string that starts without white space starts
    without white space. *)
Lemma toLowerCase_head (c : unit16) (t : jsstring) :
  isWhiteSpace c = false ->
  exists d r, toLowerCase (c :: t) = d :: r /\ isWhiteSpace d = false.
Proof.
  intros Hc. unfold toLowerCase, codePointsToString, Unicode.toLowercase.
  destruct (stringToCodePoints_head c t) as (cp & rest & -> & Hcp).
  cbn [Unicode.toLowercaseFrom]. rewrite flat_map_app.
  assert (isWhiteSpace cp = false \/ (65536 <= cp)%N) as H
    by (destruct Hcp as [->|]; auto).
  pose proof (@lowercaseAt_units_whiteSpace_free [] rest cp H) as Hf.
  pose proof (lowercaseAt_nonempty [] rest cp) as Hn.
  destruct (flat_map codePointToUnits (Unicode.lowercaseAt [] cp rest))
    as [|d r]; [congruence|].
  cbn [forallb] in Hf. apply andb_prop in Hf as [Hd _].
  exists d, (r ++ flat_map codePointToUnits
                    (Unicode.toLowercaseFrom [cp] rest)).
  split; [reflexivity|]. now destruct (isWhiteSpace d).
Qed.

(** The lower case of a string that ends without white space ends without
    white space. *)
Lemma toLowerCase_last (t : jsstring) (x : unit16) :
  isWhiteSpace x = false ->
  exists r d, toLowerCase (t ++ [x]) = r ++ [d] /\ isWhiteSpace d = false.
Proof.
  intros Hx. unfold toLowerCase, codePointsToString, Unicode.toLowercase.
  destruct (stringToCodePoints_last t x) as (pre & cp & -> & Hcp).
  destruct (toLowercaseFrom_last [] pre cp) as (X & b & ->).
  rewrite flat_map_app.
  assert (isWhiteSpace cp = false \/ (65536 <= cp)%N) as H
    by (destruct Hcp as [->|]; auto).
  pose proof (@lowercaseAt_units_whiteSpace_free b [] cp H) as Hf.
  pose proof (lowercaseAt_nonempty b [] cp) as Hn.
  destruct (exists_last Hn) as (r & d & E). rewrite E in *.
  rewrite forallb_app in Hf. apply andb_prop in Hf as [_ Hd].
  cbn [forallb] in Hd. rewrite andb_true_r in Hd.
  exists (flat_map codePointToUnits X ++ r), d.
  split; [now rewrite app_assoc | now destruct (isWhiteSpace d)].
Qed.

Lemma toLowercaseFrom_covers (before cps : list N) (c : N) :
  In c cps ->
  exists b a, forall o,
      In o (Unicode.lowercaseAt b c a) ->
      In o (Unicode.toLowercaseFrom before cps).
Proof.
  revert before. induction cps as [|d cps IH]; intros before; [intros []|].
  cbn [Unicode.toLowercaseFrom]. intros [->|H].
  - exists before, cps. intros o Ho. apply in_or_app. now left.
  - destruct (IH (d :: before) H) as (b & a & Hba).
    exists b, a. intros o Ho. apply in_or_app. right. now apply Hba.
Qed.

(** Lower-casing keeps every white-space code unit of the string. *)
Lemma toLowerCase_keeps_whiteSpace (s : jsstring) (w : unit16) :
  In w s -> isWhiteSpace w = true -> In w (toLowerCase s).
Proof.
  intros Hin H. destruct (whiteSpace_plain w H) as (Hl & Ht & Hu & Hc & Hw).
  apply in_split in Hin as (a & b & ->).
  unfold toLowerCase, codePointsToString, Unicode.toLowercase.
  rewrite stringToCodePoints_sep by assumption.
  destruct (toLowercaseFrom_covers []
              (stringToCodePoints a ++ w :: stringToCodePoints b) w)
    as (b' & a' & Hcov); [apply in_or_app; right; now left|].
  apply in_flat_map. exists w. split.
  - apply Hcov. rewrite Hw. now left.
  - rewrite Hu. now left.
Qed.


(** ** Lower-casing, trimming and splitting *)

(** [s.split(' ')[0]] is the text before the first space. *)
Lemma split_head (sep : unit16) (s : jsstring) :
  hd_error (split sep s) = Some (takeWhile (fun c => negb (N.eqb c sep)) s).
Proof.
  induction s as [|c t IH]; simpl; [reflexivity|].
  destruct (N.eqb c sep); simpl; [reflexivity|].
  destruct (split sep t) as [|w ws]; simpl in *; [discriminate|].
  now injection IH as ->.
Qed.

Lemma dropWhile_snoc (p : unit16 -> bool) (a : jsstring) (c : unit16) :
  dropWhile p (a ++ [c])
  = match dropWhile p a with
    | [] => if p c then [] else [c]
    | d :: l => (d :: l) ++ [c]
    end.
Proof.
  induction a as [|d l IH]; simpl; [reflexivity|].
  destruct (p d); [exact IH | reflexivity].
Qed.

Lemma trimEnd_cons (c : unit16) (t : jsstring) :
  trimEnd (c :: t)
  = match trimEnd t with
    | [] => if isWhiteSpace c then [] else [c]
    | d :: l => c :: d :: l
    end.
Proof.
  unfold trimEnd. simpl rev. rewrite dropWhile_snoc.
  destruct (dropWhile isWhiteSpace (rev t)) as [|d l] eqn:E.
  - simpl. now destruct (isWhiteSpace c).
  - rewrite rev_app_distr. simpl.
    destruct (rev l ++ [d]) eqn:E'; [now destruct (rev l)|reflexivity].
Qed.

(** A trimmed string does not start with white space. *)
Lemma trim_head (s : jsstring) :
  match trim s with
  | [] => True
  | c :: _ => isWhiteSpace c = false
  end.
Proof.
  unfold trim, trimStart.
  destruct (dropWhile isWhiteSpace s) as [|c t] eqn:E; [exact I|].
  apply dropWhile_head in E. rewrite trimEnd_cons.
  destruct (trimEnd t); [|exact E]. now rewrite E.
Qed.

Lemma isSpace_isWhiteSpace (c : unit16) :
  isSpace c = true -> isWhiteSpace c = true.
Proof.
  unfold isSpace. intros H. apply N.eqb_eq in H. now subst.
Qed.

Lemma firstToken_trim (s : jsstring) :
  firstToken isSpace (trim s)
  = takeWhile (fun c => negb (N.eqb c SP)) (trim s).
Proof.
  unfold firstToken. pose proof (trim_head s) as H.
  destruct (trim s) as [|c t]; [reflexivity|]. simpl dropWhile.
  destruct (isSpace c) eqn:E; [|reflexivity].
  apply isSpace_isWhiteSpace in E. congruence.
Qed.

Lemma firstToken_trim_nil (s : jsstring) :
  firstToken isSpace (trim s) = [] <-> trim s = [].
Proof.
  rewrite firstToken_trim. pose proof (trim_head s) as H.
  destruct (trim s) as [|c t]; [tauto|]. simpl.
  change (N.eqb c SP) with (isSpace c).
  destruct (isSpace c) eqn:E.
  - apply isSpace_isWhiteSpace in E. congruence.
  - simpl. split; discriminate.
Qed.

Lemma dropWhile_app_cases (p : unit16 -> bool) (s b : jsstring) :
  dropWhile p (s ++ b)
  = match dropWhile p s with
    | [] => dropWhile p b
    | c :: l => (c :: l) ++ b
    end.
Proof.
  induction s as [|c t IH]; simpl; [now destruct (dropWhile p b)|].
  destruct (p c); [exact IH | reflexivity].
Qed.

Lemma dropWhile_all (p : unit16 -> bool) (s : jsstring) :
  forallb p s = true -> dropWhile p s = [].
Proof. intros H. now destruct (takeWhile_full p s H). Qed.

Lemma forallb_rev (p : unit16 -> bool) (s : jsstring) :
  forallb p s = true -> forallb p (rev s) = true.
Proof.
  rewrite !forallb_forall. intros H x Hx. apply H. now apply in_rev.
Qed.

Lemma trimEnd_app_whiteSpace (s b : jsstring) :
  forallb isWhiteSpace b = true -> trimEnd (s ++ b) = trimEnd s.
Proof.
  intros H. unfold trimEnd. rewrite rev_app_distr, dropWhile_app_cases.
  now rewrite (dropWhile_all _ _ (forallb_rev _ _ H)).
Qed.

Lemma trimEnd_snoc_word (s : jsstring) (x : unit16) :
  isWhiteSpace x = false -> trimEnd (s ++ [x]) = s ++ [x].
Proof.
  intros H. unfold trimEnd. rewrite rev_app_distr. cbn [rev app dropWhile].
  rewrite H. cbn [rev]. now rewrite rev_involutive.
Qed.

Lemma trimStart_toLowerCase (s : jsstring) :
  trimStart (toLowerCase s) = toLowerCase (trimStart s).
Proof.
  unfold trimStart. induction s as [|c t IH]; [reflexivity|].
  cbn [dropWhile]. destruct (isWhiteSpace c) eqn:E.
  - rewrite toLowerCase_cons by exact E. cbn [dropWhile]. now rewrite E.
  - destruct (@toLowerCase_head c t E) as (d & r & -> & Hd).
    cbn [dropWhile]. now rewrite Hd.
Qed.

Lemma trimEnd_toLowerCase (s : jsstring) :
  trimEnd (toLowerCase s) = toLowerCase (trimEnd s).
Proof.
  induction s as [|x s IH] using rev_ind; [reflexivity|].
  destruct (isWhiteSpace x) eqn:E.
  - rewrite toLowerCase_snoc by exact E.
    rewrite !trimEnd_app_whiteSpace by (cbn; now rewrite E). exact IH.
  - rewrite (@trimEnd_snoc_word s x E).
    destruct (@toLowerCase_last s x E) as (r & d & -> & Hd).
    now apply trimEnd_snoc_word.
Qed.

(** Trimming and lower-casing can be done in either order. *)
Lemma trim_toLowerCase (s : jsstring) :
  trim (toLowerCase s) = toLowerCase (trim s).
Proof.
  unfold trim. now rewrite trimStart_toLowerCase, trimEnd_toLowerCase.
Qed.

(** So can lower-casing and taking the text before the first space. *)
Lemma takeWhile_space_toLowerCase (s : jsstring) :
  takeWhile (fun c => negb (N.eqb c SP)) (toLowerCase s)
  = toLowerCase (takeWhile (fun c => negb (N.eqb c SP)) s).
Proof.
  set (p := fun c : unit16 => negb (N.eqb c SP)).
  change (takeWhile p (toLowerCase s) = toLowerCase (takeWhile p s)).
  assert (forall tok, forallb p tok = true ->
                      forallb p (toLowerCase tok) = true) as Hp.
  { intros tok H. apply forallb_forall. intros u Hu. unfold p.
    destruct (N.eqb_spec u SP) as [->|]; [|reflexivity].
    apply toLowerCase_whiteSpace_origin in Hu; [|reflexivity].
    rewrite forallb_forall in H. apply H in Hu. discriminate. }
  pose proof (takeWhile_dropWhile p s) as Hs.
  pose proof (takeWhile_all p s) as Ha.
  destruct (dropWhile p s) as [|c b] eqn:E.
  - rewrite app_nil_r in Hs. rewrite Hs.
    rewrite Hs in Ha. now apply takeWhile_full, Hp.
  - apply dropWhile_head in E. unfold p in E.
    destruct (N.eqb_spec c SP) as [->|]; [|discriminate].
    rewrite <- Hs at 1.
    rewrite toLowerCase_sep by reflexivity.
    apply takeWhile_app; [now apply Hp | reflexivity].
Qed.

(** The word the tense rule looks up. *)
Lemma firstWordOf_token (p : Parsed) :
  firstWordOf p
  = toLowerCase (firstToken isSpace (trim (orEmpty (description p)))).
Proof.
  unfold firstWordOf. rewrite split_head. cbn [orEmpty].
  rewrite trim_toLowerCase, firstToken_trim.
  apply takeWhile_space_toLowerCase.
Qed.

Lemma eqb_eq (a b : jsstring) : JS.eqb a b = true <-> a = b.
Proof.
  unfold JS.eqb. destruct (list_eq_dec N.eq_dec a b); split;
    congruence || auto.
Qed.

Lemma arrayIncludes_In (a : list jsstring) (x : jsstring) :
  arrayIncludes a x = true <-> In x a.
Proof.
  unfold arrayIncludes. rewrite existsb_exists. split.
  - intros (y & Hy & E). apply eqb_eq in E. now subst.
  - intros H. exists x. split; [exact H | now apply eqb_eq].
Qed.

Lemma notEmpty_nil (s : jsstring) : notEmpty s = false <-> s = [].
Proof.
  destruct s; cbv [notEmpty List.length Nat.ltb Nat.leb]; split; congruence.
Qed.


(** ** The tense rule *)

Lemma tense_by_first_word (p : Parsed) (when : When) :
  descriptionPresentImperativeTense p when
  = if negb (notEmpty (firstWordOf p)) then (true, None)
    else
      (if isNever when then negb (arrayIncludes allowlist (firstWordOf p))
       else arrayIncludes allowlist (firstWordOf p),
       Some (message [lit "subject";
                      if isNever when then lit "may not" else lit "must";
                      lit "use present imperative tense. disallowed word: ";
                      firstWordOf p])).
Proof. reflexivity. Qed.


(** C1, as stated, does not hold: in the header [dog: fix<TAB>bug] the first
    white-space-delimited token of the description is [fix], which is in the
    allowlist, but the rule splits at spaces only, looks up [fix<TAB>bug] and
    fails. *)
Lemma tense_tab_delimited_verb_rejected :
  description (parseHeader (lit "dog: fix" ++ [TAB] ++ lit "bug"))
  = Some (lit "fix" ++ [TAB] ++ lit "bug") /\
  tensePassesAsSpecified (lit "fix" ++ [TAB] ++ lit "bug") /\
  passed (descriptionPresentImperativeTense
            (parseHeader (lit "dog: fix" ++ [TAB] ++ lit "bug")) Always)
  = false.
Proof.
  split; [reflexivity|]. split; [|reflexivity].
  right. apply arrayIncludes_In. reflexivity.
Qed.

(** C1, amended: for every parsed header, the tense rule passes if and only
    if the description is empty once trimmed, or the text before the first
    space of the trimmed description, lower-cased, is a member of the
    allowlist; two descriptions with the same lower-cased first token get
    the same result, whatever follows. *)
Theorem tense_rule_first_token (p q : Parsed) :
  (passed (descriptionPresentImperativeTense p Always) = true
   <-> tensePassesBySpace (orEmpty (description p))) /\
  (toLowerCase (firstToken isSpace (trim (orEmpty (description p))))
   = toLowerCase (firstToken isSpace (trim (orEmpty (description q)))) ->
   descriptionPresentImperativeTense p Always
   = descriptionPresentImperativeTense q Always).
Proof.
  split.
  - rewrite tense_by_first_word. unfold tensePassesBySpace.
    rewrite firstWordOf_token.
    set (d := orEmpty (description p)).
    destruct (notEmpty (toLowerCase (firstToken isSpace (trim d)))) eqn:E;
      cbn [negb isNever passed fst].
    + rewrite arrayIncludes_In. split; [now right|].
      intros [H|H]; [|exact H].
      apply firstToken_trim_nil in H. rewrite H in E. discriminate.
    + apply notEmpty_nil, toLowerCase_nil, firstToken_trim_nil in E.
      split; [now left | reflexivity].
  - intros H. rewrite !tense_by_first_word, !firstWordOf_token, H.
    reflexivity.
Qed.

Lemma tense_rule_first_token_witness :
  descriptionPresentImperativeTense
    (parseHeader (lit "dog: Add water bowl")) Always
  = descriptionPresentImperativeTense
      (parseHeader (lit "cat: add the other one")) Always.
Proof.
  apply (proj2 (tense_rule_first_token
                  (parseHeader (lit "dog: Add water bowl"))
                  (parseHeader (lit "cat: add the other one")))).
  reflexivity.
Defined.




Lemma allowlist_without_whiteSpace (w : jsstring) :
  In w allowlist -> forallb (fun c => negb (isWhiteSpace c)) w = true.
Proof.
  assert (forallb (forallb (fun c => negb (isWhiteSpace c))) allowlist = true)
    as H by (vm_compute; reflexivity).
  rewrite forallb_forall in H. apply H.
Qed.




(** C9: the allowlist the tense rule looks a word up in is the local list
    followed by the borrowed plugin list: a word is in it exactly when it is
    in one of the two; and every entry of both lists is its own lower-cased
    form. *)
Theorem allowlist_union_lower_case :
  (forall p : Parsed,
      notEmpty (firstWordOf p) = true ->
      passed (descriptionPresentImperativeTense p Always)
      = arrayIncludes
          (ALLOWED_IMPERATIVE_VERBS ++ COMMITLINT_PLUGIN_TENSE_ALLOWLIST)
          (firstWordOf p)) /\
  (forall w : jsstring,
      In w allowlist
      <-> In w ALLOWED_IMPERATIVE_VERBS
          \/ In w COMMITLINT_PLUGIN_TENSE_ALLOWLIST) /\
  Forall (fun w => toLowerCase w = w) ALLOWED_IMPERATIVE_VERBS /\
  Forall (fun w => toLowerCase w = w) COMMITLINT_PLUGIN_TENSE_ALLOWLIST.
Proof.
  assert (forall l : list jsstring,
             forallb (fun w => JS.eqb (toLowerCase w) w) l = true ->
             Forall (fun w => toLowerCase w = w) l) as F.
  { intros l H. apply Forall_forall. intros w Hw.
    rewrite forallb_forall in H. now apply eqb_eq, H. }
  split; [|split; [|split]].
  - intros p H. rewrite tense_by_first_word, H. reflexivity.
  - intros w. unfold allowlist. apply in_app_iff.
  - apply F. vm_compute. reflexivity.
  - apply F. vm_compute. reflexivity.
Qed.

Lemma allowlist_union_lower_case_witness :
  passed (descriptionPresentImperativeTense
            (parseHeader (lit "dog: refill water bowl")) Always)
  = arrayIncludes
      (ALLOWED_IMPERATIVE_VERBS ++ COMMITLINT_PLUGIN_TENSE_ALLOWLIST)
      (firstWordOf (parseHeader (lit "dog: refill water bowl"))).
Proof.
  apply (proj1 allowlist_union_lower_case
           (parseHeader (lit "dog: refill water bowl"))).
  reflexivity.
Defined.


(** ** The ignore predicates *)

Lemma startsWith_app (s sub : jsstring) :
  startsWith s sub = true <-> exists post, s = sub ++ post.
Proof.
  revert s. induction sub as [|x sub IH]; intros s; simpl.
  - destruct s; split; eauto.
  - destruct s as [|c s]; simpl; [split; [discriminate | intros [? [=]]]|].
    rewrite andb_true_iff, N.eqb_eq, IH. split.
    + intros [-> [post ->]]. now exists post.
    + intros [post [= -> ->]]. eauto.
Qed.

Lemma startsWith_skipn (s sub : jsstring) :
  startsWith s sub = true -> s = sub ++ skipn (List.length sub) s.
Proof.
  intros H. apply startsWith_app in H as [post ->].
  now rewrite skipn_app, skipn_all, Nat.sub_diag.
Qed.

Lemma includes_contains (s sub : jsstring) :
  includes s sub = true <-> contains s sub.
Proof.
  unfold contains. induction s as [|c t IH].
  - cbn [includes]. rewrite orb_false_r, startsWith_app. split.
    + intros [post H]. now exists [], post.
    + intros (pre & post & H). destruct pre; [now exists post|discriminate].
  - cbn [includes]. rewrite orb_true_iff, IH, startsWith_app. split.
    + intros [[post H]|(pre & post & ->)].
      * now exists [], post.
      * now exists (c :: pre), post.
    + intros (pre & post & H). destruct pre as [|c' pre].
      * left. now exists post.
      * right. injection H as -> ->. now exists pre, post.
Qed.

Lemma rmatch_rlit (R : Type) (l : jsstring) (r : regex) (k : cont R) :
  forall s i cs,
    rmatch (rlit l r) i s cs k
    = if startsWith s l
      then rmatch r (i + List.length l) (skipn (List.length l) s) cs k
      else None.
Proof.
  induction l as [|x l IH]; intros s i cs.
  - simpl. rewrite Nat.add_0_r. now destruct s.
  - cbn [rlit]. rewrite rmatch_seq, rmatch_set.
    destruct s as [|c t]; [reflexivity|]. cbn [cset_mem startsWith].
    destruct (N.eqb c x); [|reflexivity]. cbn [andb].
    rewrite IH. simpl. now rewrite <- plus_n_Sm.
Qed.

Lemma bumpClass_not_space (c : unit16) :
  cset_mem c bumpClass = true -> N.eqb c SP = false.
Proof.
  intros H. destruct (N.eqb_spec c SP) as [->|]; [|reflexivity].
  vm_compute in H. discriminate.
Qed.

Lemma test_bumpPattern (s : jsstring) : test bumpPattern s = bumpLineb s.
Proof.
  unfold test, bumpPattern, bumpLineb. rewrite exec_anchored.
  rewrite rmatch_rlit. change (List.length (lit "bump ")) with 5.
  destruct (startsWith s (lit "bump ")); [|reflexivity]. cbn [andb].
  set (s1 := skipn 5 s).
  rewrite rmatch_seq, rplus_greedy.
  2:{ intros j c t cs Hc. cbn [lit map list_ascii_of_string rlit].
      rewrite rmatch_seq, rmatch_set. cbn [cset_mem].
      change (N_of_ascii " ") with SP. now rewrite bumpClass_not_space. }
  change (fun c => cset_mem c bumpClass) with inBumpClass.
  destruct (takeWhile inBumpClass s1) as [|n0 name] eqn:En; [reflexivity|].
  change (notEmpty (n0 :: name)) with true. cbn [andb].
  rewrite rmatch_rlit. change (List.length (lit " to ")) with 4.
  destruct (startsWith (dropWhile inBumpClass s1) (lit " to "));
    [|reflexivity]. cbn [andb].
  set (s2 := skipn 4 (dropWhile inBumpClass s1)).
  set (j := 0 + List.length (n0 :: name) + 4).
  rewrite rmatch_seq, rmatch_opt. cbv beta.
  rewrite !rmatch_seq, !(@rplus_to_end _ bumpClass) by reflexivity.
  clearbody s2. clear.
  destruct s2 as [|c t]; [reflexivity|].
  rewrite rmatch_seq, (@rplus_to_end _ bumpClass) by reflexivity.
  rewrite !rmatch_eol.
  change (fun c => cset_mem c bumpClass) with inBumpClass.
  change (Nat.ltb 0 (List.length (c :: t))) with (notEmpty (c :: t)).
  cbn [cset_mem].
  destruct (N.eqb_spec c (chr "v")) as [->|Hc].
  - destruct (Nat.ltb 0 (List.length t) && forallb inBumpClass t)%bool eqn:Et.
    + apply andb_prop in Et as [_ Ht]. cbn [forallb].
      rewrite Ht. reflexivity.
    + now destruct (notEmpty (chr "v" :: t)
                    && forallb inBumpClass (chr "v" :: t))%bool.
  - now destruct (notEmpty (c :: t) && forallb inBumpClass (c :: t))%bool.
Qed.

Lemma In_unit (x : unit16) (s : jsstring) :
  existsb (N.eqb x) s = true -> In x s.
Proof.
  intros H. apply existsb_exists in H as (y & Hy & E).
  apply N.eqb_eq in E. now subst.
Qed.

Lemma bumpLineb_iff (s : jsstring) : bumpLineb s = true <-> isBumpLine s.
Proof.
  unfold bumpLineb, isBumpLine. split.
  - rewrite !andb_true_iff. intros [[[[H1 H2] H3] H4] H5].
    apply startsWith_skipn in H1. apply startsWith_skipn in H3.
    change (List.length (lit "bump ")) with 5 in H1.
    change (List.length (lit " to ")) with 4 in H3.
    pose proof (takeWhile_dropWhile inBumpClass (skipn 5 s)) as Hs.
    pose proof (takeWhile_all inBumpClass (skipn 5 s)) as Ha.
    exists (takeWhile inBumpClass (skipn 5 s)),
      (skipn 4 (dropWhile inBumpClass (skipn 5 s))).
    repeat split; auto.
    + intros E. rewrite E in H2. discriminate.
    + intros E. rewrite E in H4. discriminate.
    + rewrite <- H3, Hs. exact H1.
  - intros (name & version & Hn & Hv & Hcn & Hcv & ->).
    change (skipn 5 (lit "bump " ++ name ++ lit " to " ++ version))
      with (name ++ lit " to " ++ version).
    destruct (@takeWhile_app inBumpClass name (lit " to " ++ version) Hcn)
      as [-> ->]; [reflexivity|].
    change (skipn 4 (lit " to " ++ version)) with version.
    rewrite Hcv. destruct name; [congruence|]. destruct version; [congruence|].
    reflexivity.
Qed.

Lemma ignoreBump_iff (msg : jsstring) :
  ignoreBump msg = true <-> isBumpLine (trim msg).
Proof. unfold ignoreBump. now rewrite test_bumpPattern, bumpLineb_iff. Qed.

Lemma bumpLine_single_line (s : jsstring) : isBumpLine s -> ~ In LF s.
Proof.
  intros (name & version & _ & _ & Hn & Hv & ->) H.
  assert (forall l, forallb inBumpClass l = true -> ~ In LF l) as Hc.
  { intros l Hl Hin. rewrite forallb_forall in Hl. apply Hl in Hin.
    vm_compute in Hin. discriminate. }
  apply in_app_or in H as [H|H].
  { revert H. apply not_In_unit. reflexivity. }
  apply in_app_or in H as [H|H]; [now apply (Hc name)|].
  apply in_app_or in H as [H|H]; [|now apply (Hc version)].
  revert H. apply not_In_unit. reflexivity.
Qed.

Lemma evaluate_ignored (rules : list RuleEntry) (msg : jsstring) :
  isIgnored msg = true -> evaluate rules msg = mkReport [] true.
Proof. unfold evaluate. now intros ->. Qed.

Lemma isIgnored_or (msg : jsstring) :
  isIgnored msg = (ignoreMerge msg || ignoreBump msg)%bool.
Proof. unfold isIgnored, ignores. simpl. now rewrite orb_false_r. Qed.

(** C4: every commit message that contains [Merge pull request #], or whose
    trimmed text matches the bump pattern, gets a report with no rule
    results and [overallPassed = true], whatever the rules are and whatever
    they would say about it. *)
Theorem ignored_message_exempt (rules : list RuleEntry) (msg : jsstring) :
  contains msg (lit "Merge pull request #")
  \/ test bumpPattern (trim msg) = true ->
  evaluate rules msg = mkReport [] true.
Proof.
  intros H. apply evaluate_ignored. rewrite isIgnored_or.
  apply orb_true_iff. destruct H as [H|H].
  - left. now apply includes_contains.
  - right. exact H.
Qed.

Lemma ignored_message_exempt_witness :
  evaluate (pluginRules (fun _ _ _ => (false, None)))
    (lit "bump foo-pkg to v1.2.3")
  = mkReport [] true.
Proof.
  apply (@ignored_message_exempt
           (pluginRules (fun _ _ _ => (false, None)))
           (lit "bump foo-pkg to v1.2.3")).
  right. reflexivity.
Defined.

(** C7: the case rule depends on the description only: two parsed headers
    with the same description get the same result, whatever their
    components, subjects and raw header lines are. *)
Theorem case_rule_description_only
        (coreSubjectCase : Parsed -> When -> list jsstring -> RuleResult)
        (p q : Parsed) (when : When) (value : list jsstring) :
  description p = description q ->
  customSubjectCaseRule coreSubjectCase p when value
  = customSubjectCaseRule coreSubjectCase q when value.
Proof. unfold customSubjectCaseRule. now intros ->. Qed.

Lemma case_rule_description_only_witness :
  customSubjectCaseRule
    (fun parsed _ _ => (notEmpty (orEmpty (header parsed)), subject parsed))
    (parseHeader (lit "dungeonmaster: Fixes a bug")) Never disallowedCases
  = customSubjectCaseRule
      (fun parsed _ _ => (notEmpty (orEmpty (header parsed)), subject parsed))
      (parseHeader (lit "dog: Fixes a bug")) Never disallowedCases.
Proof.
  apply (@case_rule_description_only
           (fun parsed _ _ =>
              (notEmpty (orEmpty (header parsed)), subject parsed))
           (parseHeader (lit "dungeonmaster: Fixes a bug"))
           (parseHeader (lit "dog: Fixes a bug"))).
  reflexivity.
Defined.

(** C10, as stated, does not hold: the message
    [bump a to b<LF><LF>Merge pull request #1] has a body, the bump predicate
    does not match it, and it is still not validated: the merge predicate of
    the configuration matches it, so it is exempt and its report has no rule
    results. *)
Lemma bump_with_merge_body_not_validated :
  In LF (trim (lit "bump a to b" ++ [LF; LF] ++ lit "Merge pull request #1")) /\
  ignoreBump (lit "bump a to b" ++ [LF; LF] ++ lit "Merge pull request #1")
  = false /\
  existsb (fun ignore =>
             ignore (lit "bump a to b" ++ [LF; LF]
                         ++ lit "Merge pull request #1")) ignores
  = true /\
  results (evaluate (pluginRules (fun _ _ _ => (true, None)))
             (lit "bump a to b" ++ [LF; LF] ++ lit "Merge pull request #1"))
  = [].
Proof.
  split; [apply In_unit; reflexivity|]. repeat split; reflexivity.
Qed.

(** C10, amended: the bump predicate matches exactly when the whole trimmed
    message is a single bump line; a message whose trimmed text goes on
    after a line feed (a body, or any further line) is not matched.  The
    bump predicate then grants no exemption: of the ignore predicates of the
    configuration, only the merge predicate can still match such a
    message. *)
Theorem bump_single_line_only (msg : jsstring) :
  (ignoreBump msg = true <-> isBumpLine (trim msg)) /\
  (In LF (trim msg) -> ignoreBump msg = false) /\
  (ignoreBump msg = false ->
   existsb (fun ignore => ignore msg) ignores = ignoreMerge msg) /\
  (ignoreBump msg = false ->
   forall ignore, In ignore ignores -> ignore msg = true ->
                  ignoreMerge msg = true).
Proof.
  split; [apply ignoreBump_iff|]. split; [|split].
  - intros H. destruct (ignoreBump msg) eqn:E; [|reflexivity].
    apply ignoreBump_iff, bumpLine_single_line in E. contradiction.
  - intros Hb. unfold ignores. cbn [existsb]. rewrite Hb.
    now rewrite !orb_false_r.
  - intros Hb ignore [<-|[<-|[]]] H; [exact H | congruence].
Qed.

Lemma bump_single_line_only_witness :
  ignoreBump (lit "bump a to b" ++ [LF; LF] ++ lit "now with a body") = false /\
  existsb (fun ignore =>
             ignore (lit "bump a to b" ++ [LF; LF] ++ lit "now with a body"))
    ignores
  = ignoreMerge (lit "bump a to b" ++ [LF; LF] ++ lit "now with a body").
Proof.
  split.
  - apply (proj1 (proj2 (bump_single_line_only
                           (lit "bump a to b" ++ [LF; LF]
                                ++ lit "now with a body")))).
    apply In_unit. reflexivity.
  - apply (proj1 (proj2 (proj2 (bump_single_line_only
                                  (lit "bump a to b" ++ [LF; LF]
                                       ++ lit "now with a body"))))).
    reflexivity.
Defined.


(** ** More on the header patterns *)

Lemma word_in_componentClass (c : unit16) :
  isWordChar c = true -> inComponentClass c = true.
Proof. intros H. unfold inComponentClass. cbn [componentClass cset_mem]. now rewrite H. Qed.

Lemma forallb_word_componentClass (s : jsstring) :
  forallb isWordChar s = true -> forallb inComponentClass s = true.
Proof.
  intros H. apply forallb_forall. intros c Hc.
  rewrite forallb_forall in H. now apply word_in_componentClass, H.
Qed.

Lemma word_not_colon (c : unit16) :
  isWordChar c = true -> N.eqb c (chr ":") = false.
Proof.
  intros H. destruct (N.eqb_spec c (chr ":")) as [->|]; [|reflexivity].
  vm_compute in H. discriminate.
Qed.

Lemma exec_strict_headerPattern (h : jsstring) :
  exec Earlier.headerPattern h
  = match splitHeader h with
    | Some (tok, w, rest) =>
        if forallb isWordChar tok
        then Some (MatchArray h [(1, h); (3, rest); (2, tok)])
        else None
    | None => None
    end.
Proof.
  unfold Earlier.headerPattern. rewrite exec_anchored.
  rewrite rmatch_seq, rmatch_group, rmatch_seq, rmatch_group.
  rewrite rplus_greedy.
  2:{ intros j c t cs Hc. rewrite rmatch_seq, rmatch_set. cbn [cset_mem] in *.
      now rewrite word_not_colon. }
  change (fun c => cset_mem c CWord) with isWordChar.
  pose proof (takeWhile_dropWhile isWordChar h) as Hh.
  pose proof (firstn_takeWhile isWordChar h) as Hf.
  pose proof (takeWhile_all isWordChar h) as Ha.
  (* the strict pattern fails: the lax split, if any, has a token that is
     not made of word characters only *)
  assert (forall tok w rest,
             splitHeader h = Some (tok, w, rest) ->
             forallb isWordChar tok = true ->
             takeWhile isWordChar h = tok
             /\ dropWhile isWordChar h = COLON :: w :: rest) as Hlax.
  { intros tok w rest E Hw.
    apply splitHeader_Some in E as (-> & _).
    now apply takeWhile_app. }
  destruct (takeWhile isWordChar h) as [|t0 tw] eqn:Etw.
  { destruct (splitHeader h) as [[[tok w] rest]|] eqn:E; [|reflexivity].
    destruct (forallb isWordChar tok) eqn:Hw; [|reflexivity].
    destruct (Hlax _ _ _ eq_refl Hw) as [<- _].
    apply splitHeader_Some in E as (_ & Ht & _). congruence. }
  assert (forall c w rest,
             dropWhile isWordChar h = c :: w :: rest ->
             N.eqb c COLON = true -> isWhiteSpace w = true ->
             (notEmpty rest && forallb notLineTerminator rest)%bool = true ->
             splitHeader h = Some (t0 :: tw, w, rest)) as Hstrict.
  { intros c w rest Ed Ec Ew Er. rewrite Ed in Hh. rewrite <- Hh.
    apply N.eqb_eq in Ec. subst c. apply andb_prop in Er as [Hne Hl].
    apply splitHeader_shape; auto.
    - discriminate.
    - now apply forallb_word_componentClass.
    - intros ->. discriminate. }
  assert (splitHeader h = None \/
          (exists tok w rest, splitHeader h = Some (tok, w, rest)
                              /\ forallb isWordChar tok = false) ->
          None
          = match splitHeader h with
            | Some (tok, w, rest) =>
                if forallb isWordChar tok
                then Some (MatchArray h [(1, h); (3, rest); (2, tok)])
                else None
            | None => None
            end) as Hnone.
  { intros [->|(tok & w & rest & -> & ->)]; reflexivity. }
  assert (forall c' w' rest',
             dropWhile isWordChar h = c' :: w' :: rest' ->
             (N.eqb c' COLON && isWhiteSpace w'
              && (notEmpty rest' && forallb notLineTerminator rest'))%bool
             = false ->
             splitHeader h = None \/
             (exists tok w rest, splitHeader h = Some (tok, w, rest)
                                 /\ forallb isWordChar tok = false)) as Hfail.
  { intros c' w' rest' Ed Eb.
    destruct (splitHeader h) as [[[tok w] rest]|] eqn:E; [|now left].
    right. exists tok, w, rest. split; [reflexivity|].
    destruct (forallb isWordChar tok) eqn:Hw; [|reflexivity].
    destruct (Hlax _ _ _ eq_refl Hw) as [_ Hd].
    rewrite Ed in Hd. injection Hd as -> -> ->.
    apply splitHeader_Some in E as (_ & _ & _ & Ew & Hr & Hl).
    rewrite N.eqb_refl, Ew, Hl in Eb.
    destruct rest; [congruence | discriminate]. }
  assert (forall l, List.length l < 2 -> dropWhile isWordChar h = l ->
             splitHeader h = None \/
             (exists tok w rest, splitHeader h = Some (tok, w, rest)
                                 /\ forallb isWordChar tok = false)) as Hshort.
  { intros l Hl Ed.
    destruct (splitHeader h) as [[[tok w] rest]|] eqn:E; [|now left].
    right. exists tok, w, rest. split; [reflexivity|].
    destruct (forallb isWordChar tok) eqn:Hw; [|reflexivity].
    destruct (Hlax _ _ _ eq_refl Hw) as [_ Hd].
    rewrite Ed in Hd. rewrite Hd in Hl. simpl in Hl. lia. }
  destruct (dropWhile isWordChar h) as [|c [|w rest]] eqn:Edw.
  - apply Hnone, (Hshort []); [simpl; lia | reflexivity].
  - rewrite rmatch_seq, rmatch_set. cbn [cset_mem].
    transitivity (@None matchArray).
    + now destruct (N.eqb c (chr ":")).
    + apply Hnone, (Hshort [c]); [simpl; lia | reflexivity].
  - rewrite rmatch_seq, rmatch_set. cbn [cset_mem].
    change (chr ":") with COLON.
    destruct (N.eqb c COLON) eqn:Ec;
      [|apply Hnone, (Hfail c w rest); [reflexivity | now rewrite Ec]].
    rewrite rmatch_seq, rmatch_set. cbn [cset_mem].
    destruct (isWhiteSpace w) eqn:Ew;
      [|apply Hnone, (Hfail c w rest); [reflexivity | now rewrite Ec, Ew]].
    rewrite rmatch_group, (@rplus_to_end _ CDot) by reflexivity.
    change (fun c => cset_mem c CDot) with notLineTerminator.
    change (Nat.ltb 0 (List.length rest)) with (notEmpty rest).
    destruct (notEmpty rest && forallb notLineTerminator rest)%bool eqn:Er;
      [|apply Hnone, (Hfail c w rest); [reflexivity | now rewrite Ec, Ew, Er]].
    rewrite (Hstrict c w rest eq_refl Ec Ew Er).
    rewrite Ha, rmatch_eol.
    set (n := List.length (t0 :: tw)) in *.
    replace (0 + n - 0) with n by lia.
    replace (S (S (0 + n)) + List.length rest - S (S (0 + n)))
      with (List.length rest) by lia.
    replace (S (S (0 + n)) + List.length rest - 0) with (List.length h).
    2:{ rewrite <- Hh, length_app. simpl List.length. subst n. simpl. lia. }
    now rewrite Hf, !firstn_all.
Qed.

Lemma strict_parseHeader_cases (h : jsstring) :
  Earlier.parseHeader h
  = match splitHeader h with
    | Some (tok, _, rest) =>
        if forallb isWordChar tok
        then mkParsed (Some h) (Some h) (Some tok) (Some rest)
        else mkParsed (Some h) None None None
    | None => mkParsed (Some h) None None None
    end.
Proof.
  unfold Earlier.parseHeader. rewrite exec_strict_headerPattern.
  destruct (splitHeader h) as [[[tok w] rest]|] eqn:E; [|reflexivity].
  destruct (forallb isWordChar tok); [|reflexivity].
  apply splitHeader_Some in E as (-> & Ht & _ & _ & Hr & _).
  destruct tok; [congruence|]. destruct rest; [congruence|]. reflexivity.
Qed.

Lemma componentClass_range (x : unit16) :
  inComponentClass x = true -> (45 <= x <= 122)%N.
Proof.
  unfold inComponentClass. cbn [componentClass cset_mem].
  unfold isWordChar, between, chr.
  rewrite !orb_true_iff, !andb_true_iff, !N.leb_le, !N.eqb_eq.
  change (N_of_ascii ".") with 46%N. change (N_of_ascii "_") with 95%N.
  change (N_of_ascii "-") with 45%N. lia.
Qed.

Lemma componentClass_not_whiteSpace (x : unit16) :
  inComponentClass x = true -> isWhiteSpace x = false.
Proof.
  intros H. apply componentClass_range in H.
  unfold isWhiteSpace, isLineTerminator, between.
  repeat match goal with
    | |- context [N.eqb ?a ?b] => destruct (N.eqb_spec a b); [lia|]
    | |- context [N.leb ?a ?b] => destruct (N.leb_spec a b); try lia
    end; reflexivity.
Qed.

Lemma forallb_false_witness (p : unit16 -> bool) (s : jsstring) :
  forallb p s = false -> exists x, In x s /\ p x = false.
Proof.
  induction s as [|c t IH]; simpl; [discriminate|].
  destruct (p c) eqn:E; simpl.
  - intros H. destruct (IH H) as (x & Hx & Hp). exists x. auto.
  - intros _. exists c. auto.
Qed.

Lemma parsed_fields_split (h c d : jsstring) :
  component (parseHeader h) = Some c ->
  description (parseHeader h) = Some d ->
  exists w, splitHeader h = Some (c, w, d).
Proof.
  rewrite parseHeader_cases.
  destruct (splitHeader h) as [[[tok w] rest]|] eqn:E.
  - cbn [component description]. intros [= <-] [= <-]. now exists w.
  - destruct (notEmpty h && forallb notLineTerminator h)%bool; discriminate.
Qed.

Lemma componentClass_not_COLON (c : jsstring) :
  forallb inComponentClass c = true ->
  forallb (fun x => negb (N.eqb x COLON)) c = true.
Proof.
  intros Hcl. apply forallb_forall. intros x Hx. rewrite forallb_forall in Hcl.
  apply Hcl in Hx. destruct (N.eqb_spec x COLON) as [->|]; [|reflexivity].
  vm_compute in Hx. discriminate.
Qed.

(** X1: what the parser yields is well formed: a component consists of word
    characters, dots, underscores and hyphens only, so it holds no colon and
    no white space; a description holds no line terminator. *)
Theorem parsed_fields_wellformed (h c d : jsstring) :
  component (parseHeader h) = Some c ->
  description (parseHeader h) = Some d ->
  forallb inComponentClass c = true /\
  ~ In COLON c /\
  (forall x, In x c -> isWhiteSpace x = false) /\
  forallb notLineTerminator d = true.
Proof.
  intros Hc Hd. destruct (parsed_fields_split h Hc Hd) as [w E].
  apply splitHeader_Some in E as (_ & _ & Hcl & _ & _ & Hl).
  repeat split; auto.
  - intros Hin. apply componentClass_not_COLON in Hcl.
    rewrite forallb_forall in Hcl. apply Hcl in Hin.
    now rewrite N.eqb_refl in Hin.
  - intros x Hx. rewrite forallb_forall in Hcl.
    now apply componentClass_not_whiteSpace, Hcl.
Qed.

Lemma parsed_fields_wellformed_witness :
  forallb inComponentClass (lit "k8s-1.30") = true /\
  ~ In COLON (lit "k8s-1.30") /\
  (forall x, In x (lit "k8s-1.30") -> isWhiteSpace x = false) /\
  forallb notLineTerminator (lit "pin: the version") = true.
Proof.
  apply (@parsed_fields_wellformed (lit "k8s-1.30: pin: the version")
           (lit "k8s-1.30") (lit "pin: the version")); reflexivity.
Defined.

(** X2: the header is split at its first colon: the component is the text
    before the first colon of the header and the description is everything
    after that colon and the one white-space character behind it, further
    colons included. *)
Theorem split_at_first_colon (h c d : jsstring) :
  component (parseHeader h) = Some c ->
  description (parseHeader h) = Some d ->
  c = takeWhile (fun x => negb (N.eqb x COLON)) h /\
  d = skipn (List.length c + 2) h.
Proof.
  intros Hc Hd. destruct (parsed_fields_split h Hc Hd) as [w E].
  apply splitHeader_Some in E as (-> & _ & Hcl & _).
  split.
  - symmetry. apply takeWhile_app.
    + now apply componentClass_not_COLON.
    + now rewrite N.eqb_refl.
  - rewrite skipn_app, skipn_all2 by lia.
    replace (List.length c + 2 - List.length c) with 2 by lia. reflexivity.
Qed.

Lemma split_at_first_colon_witness :
  lit "a" = takeWhile (fun x => negb (N.eqb x COLON)) (lit "a: b: c") /\
  lit "b: c" = skipn (List.length (lit "a") + 2) (lit "a: b: c").
Proof.
  apply (@split_at_first_colon (lit "a: b: c") (lit "a") (lit "b: c"));
    reflexivity.
Defined.

(** X3: the current pattern accepts every line: a header that is not empty
    and has no line terminator always matches, and its subject is the whole
    header. *)
Theorem headerPattern_accepts_every_line (h : jsstring) :
  h <> [] -> forallb notLineTerminator h = true ->
  test headerPattern h = true /\ subject (parseHeader h) = Some h.
Proof.
  intros Hne Hl. rewrite parseHeader_cases. unfold test.
  rewrite exec_headerPattern.
  destruct (splitHeader h) as [[[tok w] rest]|]; [split; reflexivity|].
  rewrite Hl. destruct h; [congruence|]. split; reflexivity.
Qed.

Lemma headerPattern_accepts_every_line_witness :
  test headerPattern (lit "?!") = true /\
  subject (parseHeader (lit "?!")) = Some (lit "?!").
Proof.
  apply (@headerPattern_accepts_every_line (lit "?!"));
    [discriminate | reflexivity].
Defined.

(** X4: the only headers the current pattern does not match are the empty
    header and headers holding a line terminator; every part of such a
    header is [null]. *)
Theorem headerPattern_rejects_only (h : jsstring) :
  test headerPattern h = false ->
  (h = [] \/ exists x, In x h /\ isLineTerminator x = true) /\
  subject (parseHeader h) = None /\
  component (parseHeader h) = None /\
  description (parseHeader h) = None.
Proof.
  rewrite parseHeader_cases. unfold test. rewrite exec_headerPattern.
  destruct (splitHeader h) as [[[tok w] rest]|]; [discriminate|].
  destruct h as [|c t]; [intros _; repeat split; now left|].
  cbn [notEmpty List.length Nat.ltb Nat.leb andb].
  destruct (forallb notLineTerminator (c :: t)) eqn:E; [discriminate|].
  intros _. repeat split. right.
  apply forallb_false_witness in E as (x & Hx & Hp). exists x. split; auto.
  unfold notLineTerminator in Hp. now destruct (isLineTerminator x).
Qed.

Lemma headerPattern_rejects_only_witness :
  (lit "fix" ++ [CR] ++ lit "bug" = []
   \/ exists x, In x (lit "fix" ++ [CR] ++ lit "bug")
                /\ isLineTerminator x = true) /\
  subject (parseHeader (lit "fix" ++ [CR] ++ lit "bug")) = None /\
  component (parseHeader (lit "fix" ++ [CR] ++ lit "bug")) = None /\
  description (parseHeader (lit "fix" ++ [CR] ++ lit "bug")) = None.
Proof.
  apply (@headerPattern_rejects_only (lit "fix" ++ [CR] ++ lit "bug")).
  reflexivity.
Defined.

(** X5: the current pattern extends the strict pattern of the generation
    without custom rules: whenever the strict pattern yields a component, the
    current pattern yields the same parsed header. *)
Theorem lax_pattern_extends_strict (h c : jsstring) :
  component (Earlier.parseHeader h) = Some c ->
  parseHeader h = Earlier.parseHeader h.
Proof.
  rewrite strict_parseHeader_cases, parseHeader_cases.
  destruct (splitHeader h) as [[[tok w] rest]|]; [|discriminate].
  destruct (forallb isWordChar tok); [reflexivity | discriminate].
Qed.

Lemma lax_pattern_extends_strict_witness :
  parseHeader (lit "dog: refill water bowl")
  = Earlier.parseHeader (lit "dog: refill water bowl").
Proof.
  apply (@lax_pattern_extends_strict (lit "dog: refill water bowl") (lit "dog")).
  reflexivity.
Defined.

(** X6: where the strict pattern finds no component it yields no subject
    either, so a missing component shows as an empty subject; the current
    pattern keeps the whole line as the subject of the same header. *)
Theorem strict_pattern_loses_subject (h : jsstring) :
  h <> [] -> forallb notLineTerminator h = true ->
  component (Earlier.parseHeader h) = None ->
  subject (Earlier.parseHeader h) = None /\
  description (Earlier.parseHeader h) = None /\
  subject (parseHeader h) = Some h.
Proof.
  intros Hne Hl. rewrite strict_parseHeader_cases, parseHeader_cases.
  destruct (splitHeader h) as [[[tok w] rest]|].
  - destruct (forallb isWordChar tok); [discriminate|]. repeat split.
  - rewrite Hl. destruct h; [congruence|]. repeat split.
Qed.

Lemma strict_pattern_loses_subject_witness :
  subject (Earlier.parseHeader (lit "migrate shoes to new shoe module."))
  = None /\
  description (Earlier.parseHeader (lit "migrate shoes to new shoe module."))
  = None /\
  subject (parseHeader (lit "migrate shoes to new shoe module."))
  = Some (lit "migrate shoes to new shoe module.").
Proof.
  apply (@strict_pattern_loses_subject
           (lit "migrate shoes to new shoe module."));
    [discriminate | reflexivity | reflexivity].
Defined.

(** X7: a component with a dot or a hyphen in it is what the current pattern
    adds: for a token of word characters, dots, underscores and hyphens that
    is not made of word characters alone, the strict pattern yields no
    component and the current pattern yields the token. *)
Theorem dotted_component_needs_lax_pattern
        (token rest : jsstring) (w : unit16) :
  token <> [] -> forallb inComponentClass token = true ->
  forallb isWordChar token = false ->
  isWhiteSpace w = true ->
  rest <> [] -> forallb notLineTerminator rest = true ->
  component (Earlier.parseHeader (token ++ COLON :: w :: rest)) = None /\
  component (parseHeader (token ++ COLON :: w :: rest)) = Some token /\
  description (parseHeader (token ++ COLON :: w :: rest)) = Some rest.
Proof.
  intros Ht Hc Hw Hws Hr Hl.
  rewrite strict_parseHeader_cases, parseHeader_cases.
  rewrite splitHeader_shape by auto. rewrite Hw. repeat split.
Qed.

Lemma dotted_component_needs_lax_pattern_witness :
  component (Earlier.parseHeader (lit "k8s-1.30" ++ COLON :: SP :: lit "pin it"))
  = None /\
  component (parseHeader (lit "k8s-1.30" ++ COLON :: SP :: lit "pin it"))
  = Some (lit "k8s-1.30") /\
  description (parseHeader (lit "k8s-1.30" ++ COLON :: SP :: lit "pin it"))
  = Some (lit "pin it").
Proof.
  apply (@dotted_component_needs_lax_pattern (lit "k8s-1.30") (lit "pin it") SP);
    try reflexivity; discriminate.
Defined.


(** ** More on trimming *)

(** White space around a string does not survive [trim]. *)
Lemma trim_padded (a s b : jsstring) :
  forallb isWhiteSpace a = true -> forallb isWhiteSpace b = true ->
  trim (a ++ s ++ b) = trim s.
Proof.
  intros Ha Hb. unfold trim, trimStart.
  rewrite dropWhile_app_cases, (dropWhile_all _ _ Ha).
  rewrite dropWhile_app_cases.
  destruct (dropWhile isWhiteSpace s) as [|c l].
  - now rewrite (dropWhile_all _ _ Hb).
  - now apply trimEnd_app_whiteSpace.
Qed.

Lemma trimEnd_app_word (u x : jsstring) :
  forallb (fun c => negb (isWhiteSpace c)) u = true ->
  trimEnd (u ++ x) = u ++ trimEnd x.
Proof.
  induction u as [|c t IH]; intros H; [reflexivity|].
  simpl in H. apply andb_prop in H as [Hc Ht].
  cbn [app]. rewrite trimEnd_cons, (IH Ht).
  destruct (t ++ trimEnd x); [|reflexivity].
  now destruct (isWhiteSpace c).
Qed.

Lemma trimEnd_head (x : jsstring) :
  match trimEnd x with
  | [] => True
  | c :: _ => exists t, x = c :: t
  end.
Proof.
  destruct x as [|c t]; [exact I|]. rewrite trimEnd_cons.
  destruct (trimEnd t); [destruct (isWhiteSpace c)|]; simpl; eauto.
Qed.

(** The first space-delimited token of a word followed by nothing or by a
    space is the word. *)
Lemma firstToken_word (u x : jsstring) :
  u <> [] -> forallb (fun c => negb (isWhiteSpace c)) u = true ->
  x = [] \/ (exists rest, x = SP :: rest) ->
  firstToken isSpace (trim (u ++ x)) = u.
Proof.
  intros Hne Hu Hx. rewrite firstToken_trim.
  assert (trim (u ++ x) = u ++ trimEnd x) as ->.
  { unfold trim, trimStart. destruct u as [|c t]; [congruence|].
    simpl in Hu. apply andb_prop in Hu as [Hc Ht].
    cbn [app dropWhile]. destruct (isWhiteSpace c) eqn:E; [discriminate|].
    apply (trimEnd_app_word (c :: t)). simpl. now rewrite E, Ht. }
  apply takeWhile_app.
  - apply forallb_forall. intros c Hc. rewrite forallb_forall in Hu.
    apply Hu in Hc. change (N.eqb c SP) with (isSpace c).
    destruct (isSpace c) eqn:E; [|reflexivity].
    apply isSpace_isWhiteSpace in E. rewrite E in Hc. discriminate.
  - pose proof (trimEnd_head x) as H.
    destruct (trimEnd x) as [|c l]; [exact I|].
    destruct H as [t ->].
    destruct Hx as [Hx|[rest Hx]]; [discriminate|].
    injection Hx as -> _. reflexivity.
Qed.

Lemma whiteSpace_free_toLowerCase (u : jsstring) :
  forallb (fun c => negb (isWhiteSpace c)) (toLowerCase u) = true ->
  forallb (fun c => negb (isWhiteSpace c)) u = true.
Proof.
  rewrite !forallb_forall. intros H c Hc.
  destruct (isWhiteSpace c) eqn:E; [|reflexivity].
  apply (toLowerCase_keeps_whiteSpace _ _ Hc) in E as Hl.
  apply H in Hl. now rewrite E in Hl.
Qed.

Lemma allowlist_nonempty (w : jsstring) : In w allowlist -> w <> [].
Proof.
  assert (forallb notEmpty allowlist = true) as H by (vm_compute; reflexivity).
  rewrite forallb_forall in H. intros Hw E. apply H in Hw. subst.
  discriminate.
Qed.

(** ** More on the rules and the ignore predicates *)

Lemma firstWordOf_nil (p : Parsed) :
  firstWordOf p = [] <-> trim (orEmpty (description p)) = [].
Proof.
  now rewrite firstWordOf_token, toLowerCase_nil, firstToken_trim_nil.
Qed.

Lemma unsplit_description (h : jsstring) :
  component (parseHeader h) = None -> description (parseHeader h) = None.
Proof.
  rewrite parseHeader_cases.
  destruct (splitHeader h) as [[[tok w] rest]|]; [discriminate|].
  now destruct (notEmpty h && forallb notLineTerminator h)%bool.
Qed.

(** X8: a description that is blank (empty once trimmed) passes the tense
    rule under [always] and under [never] alike, without a message; for any
    other description the verdict under [never] is the negation of the
    verdict under [always], and both results carry a message. *)
Theorem tense_blank_or_negated (p : Parsed) :
  (trim (orEmpty (description p)) = [] ->
   descriptionPresentImperativeTense p Always = (true, None) /\
   descriptionPresentImperativeTense p Never = (true, None)) /\
  (trim (orEmpty (description p)) <> [] ->
   passed (descriptionPresentImperativeTense p Never)
   = negb (passed (descriptionPresentImperativeTense p Always)) /\
   messageOf (descriptionPresentImperativeTense p Always) <> None /\
   messageOf (descriptionPresentImperativeTense p Never) <> None).
Proof.
  rewrite !tense_by_first_word. split; intros H.
  - apply firstWordOf_nil in H. rewrite H. split; reflexivity.
  - destruct (notEmpty (firstWordOf p)) eqn:E.
    + cbn [negb isNever passed messageOf fst snd].
      repeat split; discriminate.
    + apply notEmpty_nil, firstWordOf_nil in E. contradiction.
Qed.

Lemma tense_blank_or_negated_witness :
  (descriptionPresentImperativeTense
     (mkParsed None None None (Some (lit "   "))) Always = (true, None) /\
   descriptionPresentImperativeTense
     (mkParsed None None None (Some (lit "   "))) Never = (true, None)) /\
  (passed (descriptionPresentImperativeTense
             (parseHeader (lit "dog: fix it")) Never)
   = negb (passed (descriptionPresentImperativeTense
                     (parseHeader (lit "dog: fix it")) Always)) /\
   messageOf (descriptionPresentImperativeTense
                (parseHeader (lit "dog: fix it")) Always) <> None /\
   messageOf (descriptionPresentImperativeTense
                (parseHeader (lit "dog: fix it")) Never) <> None).
Proof.
  split.
  - apply (proj1 (tense_blank_or_negated
                    (mkParsed None None None (Some (lit "   "))))).
    reflexivity.
  - apply (proj2 (tense_blank_or_negated (parseHeader (lit "dog: fix it")))).
    vm_compute. discriminate.
Defined.

(** X9: a header in which the parser finds no component is never flagged by
    the tense rule, under either [when]: its description is [null], and the
    rule returns [[true]] without looking a word up. *)
Theorem tense_skips_unsplit_header (h : jsstring) (when : When) :
  component (parseHeader h) = None ->
  descriptionPresentImperativeTense (parseHeader h) when = (true, None).
Proof.
  intros H. apply unsplit_description in H.
  rewrite tense_by_first_word.
  assert (firstWordOf (parseHeader h) = []) as ->
    by (apply firstWordOf_nil; now rewrite H).
  reflexivity.
Qed.

Lemma tense_skips_unsplit_header_witness :
  descriptionPresentImperativeTense
    (parseHeader (lit "Fixes a bug with STR and CON attributes")) Always
  = (true, None).
Proof.
  apply (@tense_skips_unsplit_header
           (lit "Fixes a bug with STR and CON attributes") Always).
  reflexivity.
Defined.

(** X10: every verb of the allowlist is accepted, in any letter case: a
    description that is such a verb, alone or followed by a space and
    anything else, passes the tense rule. *)
Theorem allowed_verb_passes (p : Parsed) (verb : jsstring) :
  In (toLowerCase verb) allowlist ->
  description p = Some verb
  \/ (exists rest, description p = Some (verb ++ SP :: rest)) ->
  passed (descriptionPresentImperativeTense p Always) = true.
Proof.
  intros Hin Hd.
  assert (verb <> []) as Hne
    by (intros ->; apply (allowlist_nonempty Hin); reflexivity).
  pose proof (@whiteSpace_free_toLowerCase _
                (@allowlist_without_whiteSpace _ Hin)) as Hws.
  assert (firstWordOf p = toLowerCase verb) as Hw.
  { rewrite firstWordOf_token. f_equal.
    destruct Hd as [->|[rest ->]]; cbn [orEmpty].
    - rewrite <- (app_nil_r verb) at 1. apply firstToken_word; auto.
    - apply firstToken_word; eauto. }
  rewrite tense_by_first_word, Hw.
  destruct (notEmpty (toLowerCase verb)) eqn:E.
  - cbn [negb isNever passed fst]. now apply arrayIncludes_In.
  - reflexivity.
Qed.

Lemma allowed_verb_passes_witness :
  passed (descriptionPresentImperativeTense
            (parseHeader (lit "dog: Re-Enable the water bowl")) Always)
  = true.
Proof.
  apply (@allowed_verb_passes
           (parseHeader (lit "dog: Re-Enable the water bowl"))
           (lit "Re-Enable")).
  - apply arrayIncludes_In. reflexivity.
  - right. exists (lit "the water bowl"). reflexivity.
Defined.

(** X11: white space around a message, line breaks included, never changes
    whether the bump predicate exempts it. *)
Theorem ignoreBump_padding (before msg after : jsstring) :
  forallb isWhiteSpace before = true ->
  forallb isWhiteSpace after = true ->
  ignoreBump (before ++ msg ++ after) = ignoreBump msg.
Proof.
  intros Ha Hb. unfold ignoreBump. now rewrite trim_padded.
Qed.

Lemma ignoreBump_padding_witness :
  ignoreBump ([LF; SP] ++ lit "bump foo-pkg to v1.2.3" ++ [CR; LF; LF])
  = ignoreBump (lit "bump foo-pkg to v1.2.3").
Proof.
  apply (@ignoreBump_padding [LF; SP] (lit "bump foo-pkg to v1.2.3")
           [CR; LF; LF]); reflexivity.
Defined.

Lemma bumpLine_no_colon (s : jsstring) : isBumpLine s -> ~ In COLON s.
Proof.
  intros (name & version & _ & _ & Hn & Hv & ->) H.
  assert (forall l, forallb inBumpClass l = true -> ~ In COLON l) as Hc.
  { intros l Hl Hin. rewrite forallb_forall in Hl. apply Hl in Hin.
    vm_compute in Hin. discriminate. }
  apply in_app_or in H as [H|H].
  { revert H. apply not_In_unit. reflexivity. }
  apply in_app_or in H as [H|H]; [now apply (Hc name)|].
  apply in_app_or in H as [H|H]; [|now apply (Hc version)].
  revert H. apply not_In_unit. reflexivity.
Qed.

(** X12: the bump predicate exempts only messages that would otherwise be
    rejected: the bump line of a message it matches has no component and no
    description, so the two presence rules, as configured, fail on it. *)
Theorem bump_line_fails_presence_rules (msg : jsstring) :
  ignoreBump msg = true ->
  component (parseHeader (trim msg)) = None /\
  description (parseHeader (trim msg)) = None /\
  passed (componentEmpty (parseHeader (trim msg)) Never) = false /\
  passed (descriptionEmpty (parseHeader (trim msg)) Never) = false.
Proof.
  intros H. apply ignoreBump_iff, bumpLine_no_colon, no_colon_no_split in H.
  rewrite parseHeader_cases, H.
  destruct (notEmpty (trim msg) && forallb notLineTerminator (trim msg))%bool;
    repeat split.
Qed.

Lemma bump_line_fails_presence_rules_witness :
  component (parseHeader (trim (lit "bump foo-pkg to v1.2.3"))) = None /\
  description (parseHeader (trim (lit "bump foo-pkg to v1.2.3"))) = None /\
  passed (componentEmpty (parseHeader (trim (lit "bump foo-pkg to v1.2.3")))
            Never) = false /\
  passed (descriptionEmpty (parseHeader (trim (lit "bump foo-pkg to v1.2.3")))
            Never) = false.
Proof.
  apply (@bump_line_fails_presence_rules (lit "bump foo-pkg to v1.2.3")).
  reflexivity.
Defined.

Lemma lowercaseMapping_no_capital (c d : N) (u : unit16) :
  In (c, d) Unicode.lowercaseMapping ->
  In u (codePointToUnits d) -> between 65 90 u = false.
Proof.
  assert (forallb (fun e => forallb (fun u => negb (between 65 90 u))
                              (codePointToUnits (snd e)))
            Unicode.lowercaseMapping = true) as H
    by (vm_compute; reflexivity).
  rewrite forallb_forall in H. intros Hin Hu. apply H in Hin.
  cbn [snd] in Hin. rewrite forallb_forall in Hin. apply Hin in Hu.
  now destruct (between 65 90 u).
Qed.

Lemma capital_has_mapping (c : N) :
  between 65 90 c = true -> Unicode.lookup c Unicode.lowercaseMapping <> None.
Proof.
  unfold between. rewrite andb_true_iff, !N.leb_le. intros [H1 H2].
  assert (In c (map N.of_nat (seq 65 26))) as Hin.
  { apply in_map_iff. exists (N.to_nat c). split; [lia|].
    apply in_seq. lia. }
  cbn in Hin.
  repeat (destruct Hin as [<-|Hin]; [vm_compute; discriminate|]).
  contradiction.
Qed.

(** The lower case of a string holds no letter A-Z. *)
Lemma toLowerCase_no_capital (s : jsstring) (u : unit16) :
  In u (toLowerCase s) -> between 65 90 u = false.
Proof.
  unfold toLowerCase, codePointsToString, Unicode.toLowercase.
  intros H. apply in_flat_map in H as (o & Ho & Hu).
  apply toLowercaseFrom_In in Ho as (b & c & a & _ & Ho).
  revert Ho. unfold Unicode.lowercaseAt.
  destruct (N.eqb c 304).
  { intros [<-|[<-|[]]]; destruct Hu as [<-|[]]; reflexivity. }
  destruct (N.eqb c 931).
  { destruct (Unicode.finalSigma b a);
      intros [<-|[]]; destruct Hu as [<-|[]]; reflexivity. }
  unfold Unicode.simpleLowercase.
  destruct (Unicode.lookup c Unicode.lowercaseMapping) as [d|] eqn:E.
  - intros [<-|[]]. apply lookup_In in E.
    exact (@lowercaseMapping_no_capital _ _ _ E Hu).
  - intros [<-|[]]. destruct (between 65 90 u) eqn:Eu; [|reflexivity].
    exfalso. revert Hu. unfold codePointToUnits.
    destruct (N.ltb c 65536 || N.ltb 1114111 c)%bool.
    + intros [<-|[]]. now apply capital_has_mapping in Eu.
    + unfold between in Eu. rewrite andb_true_iff, !N.leb_le in Eu.
      set (q := ((c - 65536) / 1024)%N). set (r := ((c - 65536) mod 1024)%N).
      clearbody q r. intros [<-|[<-|[]]]; lia.
Qed.

(** X13: the wrapping tense rule of the earlier generation hands the plugin's
    rule the header, component and description as they are and, as subject,
    the lower-cased description, which holds no letter A-Z.  The parsed
    subject never reaches the plugin: two parsed headers that differ in
    nothing but their subject get the same result. *)
Theorem subjectTense_lower_case_subject
        (Options : Type)
        (pluginSubjectTense : Parsed -> When -> Options -> RuleResult)
        (p q : Parsed) (when : When) (value : Options) :
  header p = header q -> component p = component q ->
  description p = description q ->
  Earlier.subjectTense pluginSubjectTense p when value
  = Earlier.subjectTense pluginSubjectTense q when value /\
  Earlier.subjectTense pluginSubjectTense p when value
  = pluginSubjectTense
      (mkParsed (header p)
                (Some (toLowerCase (orEmpty (description p))))
                (component p) (description p))
      when value /\
  (forall x, In x (toLowerCase (orEmpty (description p))) ->
             between 65 90 x = false).
Proof.
  intros Hh Hc Hd. unfold Earlier.subjectTense. rewrite Hh, Hc, Hd.
  repeat split. intros x. apply toLowerCase_no_capital.
Qed.

Lemma subjectTense_lower_case_subject_witness :
  Earlier.subjectTense
    (fun parsed (_ : When) (_ : unit) => (true, subject parsed))
    (mkParsed (Some (lit "dog: Fix It")) (Some (lit "dog: Fix It"))
              (Some (lit "dog")) (Some (lit "Fix It")))
    Always tt
  = Earlier.subjectTense
      (fun parsed (_ : When) (_ : unit) => (true, subject parsed))
      (mkParsed (Some (lit "dog: Fix It")) None
                (Some (lit "dog")) (Some (lit "Fix It")))
      Always tt /\
  Earlier.subjectTense
    (fun parsed (_ : When) (_ : unit) => (true, subject parsed))
    (mkParsed (Some (lit "dog: Fix It")) (Some (lit "dog: Fix It"))
              (Some (lit "dog")) (Some (lit "Fix It")))
    Always tt
  = (fun parsed (_ : When) (_ : unit) => (true, subject parsed))
      (mkParsed (Some (lit "dog: Fix It"))
                (Some (toLowerCase (orEmpty (Some (lit "Fix It")))))
                (Some (lit "dog")) (Some (lit "Fix It")))
      Always tt /\
  (forall x, In x (toLowerCase (orEmpty (Some (lit "Fix It")))) ->
             between 65 90 x = false).
Proof.
  apply (@subjectTense_lower_case_subject unit
           (fun parsed (_ : When) (_ : unit) => (true, subject parsed))
           (mkParsed (Some (lit "dog: Fix It")) (Some (lit "dog: Fix It"))
                     (Some (lit "dog")) (Some (lit "Fix It")))
           (mkParsed (Some (lit "dog: Fix It")) None
                     (Some (lit "dog")) (Some (lit "Fix It")))
           Always tt); reflexivity.
Defined.

(** X14: the merge predicate looks for its marker anywhere in the message:
    once a message is exempt as a merge, it stays exempt whatever text is put
    before or after it. *)
Theorem ignoreMerge_anywhere (before msg after : jsstring) :
  ignoreMerge msg = true ->
  ignoreMerge (before ++ msg ++ after) = true.
Proof.
  unfold ignoreMerge. rewrite !includes_contains.
  intros (pre & post & ->). exists (before ++ pre), (post ++ after).
  now rewrite <- !app_assoc.
Qed.

Lemma ignoreMerge_anywhere_witness :
  ignoreMerge (lit "dog: Refill." ++ lit "Merge pull request #42" ++ [LF])
  = true.
Proof.
  apply (@ignoreMerge_anywhere (lit "dog: Refill.")
           (lit "Merge pull request #42") [LF]).
  reflexivity.
Defined.

(** X15: for a header in which the parser finds no component, the case rule
    runs the core rule on a [null] subject: the text of such a header never
    reaches the case check. *)
Theorem case_rule_skips_unsplit_header
        (coreSubjectCase : Parsed -> When -> list jsstring -> RuleResult)
        (h : jsstring) (when : When) (value : list jsstring) :
  component (parseHeader h) = None ->
  customSubjectCaseRule coreSubjectCase (parseHeader h) when value
  = coreSubjectCase (mkParsed None None None None) when value.
Proof.
  intros H. apply unsplit_description in H.
  unfold customSubjectCaseRule. now rewrite H.
Qed.

Lemma case_rule_skips_unsplit_header_witness :
  customSubjectCaseRule
    (fun parsed _ _ => (negb (notEmpty (orEmpty (subject parsed))), None))
    (parseHeader (lit "Fixes A Bug")) Never disallowedCases
  = (fun parsed _ _ => (negb (notEmpty (orEmpty (subject parsed))), None))
      (mkParsed None None None None) Never disallowedCases.
Proof.
  apply (@case_rule_skips_unsplit_header
           (fun parsed _ _ =>
              (negb (notEmpty (orEmpty (subject parsed))), None))
           (lit "Fixes A Bug") Never disallowedCases).
  reflexivity.
Defined.

(** X16: a header of the preferred form passes the three rules the
    configuration implements itself: for a component of word characters,
    dots, underscores and hyphens, a verb of the allowlist in any letter
    case, and a remainder without line terminators, the header
    [component: verb remainder] passes [component-empty],
    [description-empty] and [description-present-imperative-tense] as
    configured. *)
Theorem preferred_header_passes
        (token verb rest : jsstring) :
  token <> [] -> forallb inComponentClass token = true ->
  In (toLowerCase verb) allowlist ->
  forallb notLineTerminator rest = true ->
  passed (componentEmpty
            (parseHeader (token ++ lit ": " ++ verb ++ SP :: rest)) Never)
  = true /\
  passed (descriptionEmpty
            (parseHeader (token ++ lit ": " ++ verb ++ SP :: rest)) Never)
  = true /\
  passed (descriptionPresentImperativeTense
            (parseHeader (token ++ lit ": " ++ verb ++ SP :: rest)) Always)
  = true.
Proof.
  intros Ht Hc Hin Hl.
  assert (verb <> []) as Hne
    by (intros ->; apply (allowlist_nonempty Hin); reflexivity).
  pose proof (@whiteSpace_free_toLowerCase _
                (@allowlist_without_whiteSpace _ Hin)) as Hws.
  assert (parseHeader (token ++ lit ": " ++ verb ++ SP :: rest)
          = mkParsed (Some (token ++ lit ": " ++ verb ++ SP :: rest))
                     (Some (token ++ lit ": " ++ verb ++ SP :: rest))
                     (Some token) (Some (verb ++ SP :: rest))) as Hp.
  { rewrite parseHeader_cases.
    change (token ++ lit ": " ++ verb ++ SP :: rest)
      with (token ++ COLON :: SP :: (verb ++ SP :: rest)).
    rewrite splitHeader_shape; auto.
    - destruct verb; [congruence | discriminate].
    - rewrite forallb_app. apply andb_true_intro.
      split; [|cbn [forallb]; rewrite Hl; reflexivity].
      apply forallb_forall. intros c Hc'. rewrite forallb_forall in Hws.
      apply Hws in Hc'. unfold notLineTerminator.
      destruct (isLineTerminator c) eqn:E; [|reflexivity].
      unfold isWhiteSpace in Hc'. rewrite E, !orb_true_r in Hc'.
      discriminate. }
  rewrite Hp. split; [|split].
  - destruct token; [congruence | reflexivity].
  - destruct verb; [congruence | reflexivity].
  - rewrite tense_by_first_word.
    assert (firstWordOf (mkParsed
                           (Some (token ++ lit ": " ++ verb ++ SP :: rest))
                           (Some (token ++ lit ": " ++ verb ++ SP :: rest))
                           (Some token) (Some (verb ++ SP :: rest)))
            = toLowerCase verb) as ->.
    { rewrite firstWordOf_token. f_equal. cbn [description orEmpty].
      apply firstToken_word; eauto. }
    destruct (notEmpty (toLowerCase verb)); [|reflexivity].
    cbn [negb isNever passed fst]. now apply arrayIncludes_In.
Qed.

Lemma preferred_header_passes_witness :
  passed (componentEmpty
            (parseHeader (lit "shoestore" ++ lit ": " ++ lit "migrate"
                              ++ SP :: lit "shoes to new shoe module")) Never)
  = true /\
  passed (descriptionEmpty
            (parseHeader (lit "shoestore" ++ lit ": " ++ lit "migrate"
                              ++ SP :: lit "shoes to new shoe module")) Never)
  = true /\
  passed (descriptionPresentImperativeTense
            (parseHeader (lit "shoestore" ++ lit ": " ++ lit "migrate"
                              ++ SP :: lit "shoes to new shoe module")) Always)
  = true.
Proof.
  apply (@preferred_header_passes (lit "shoestore") (lit "migrate")
           (lit "shoes to new shoe module")).
  - discriminate.
  - reflexivity.
  - apply arrayIncludes_In. reflexivity.
  - reflexivity.
Defined.

